(** * index_url: a shallow embedding of [main.py]

    The script reads URLs from a CSV table and asks two search engines
    (Yandex Webmaster, Google Indexing) to re-crawl each of them, writing
    one result row per URL.  This development embeds the functions of
    [main.py] in an exception-and-state monad over an explicit file
    system, an abstract network and a chronological trace of the effects
    the script performs, and proves the properties of the submission
    workflow.

    Python values are modelled as the code has them: [str] as [string]
    holding the UTF-8 encoding, parsed JSON as the inductive [json],
    exceptions as [exn], a call that may raise as [result]. *)

From Stdlib Require Import ZArith String Ascii List Lia.
From Stdlib Require Import Floats.SpecFloat.
From stdpp Require Import base option list strings gmap pretty.

#[local] Set Warnings "-register-all".
#[local] Open Scope string_scope.
#[local] Open Scope Z_scope.

(** ** Python strings *)

Module PyStr.

Definition bytes_of (s : string) : list N :=
  N_of_ascii <$> list_ascii_of_string s.

Definition of_bytes (l : list N) : string :=
  string_of_list_ascii (ascii_of_N <$> l).

Definition in_range (lo hi a : N) : bool := ((lo <=? a) && (a <=? hi))%N.

(** [str.isspace] on one code point, read on its UTF-8 encoding: the
    code points U+0009..U+000D, U+001C..U+0020 (one byte), U+0085 and
    U+00A0 (two bytes), U+1680, U+2000..U+200A, U+2028, U+2029, U+202F,
    U+205F and U+3000 (three bytes). *)
Definition is_space1 (a : N) : bool := in_range 9 13 a || in_range 28 32 a.

Definition is_space2 (a b : N) : bool :=
  ((a =? 194) && ((b =? 133) || (b =? 160)))%N.

Definition is_space3 (a b c : N) : bool :=
  (((a =? 225) && (b =? 154) && (c =? 128))
   || ((a =? 226) && (b =? 128)
       && (in_range 128 138 c || (c =? 168) || (c =? 169) || (c =? 175)))
   || ((a =? 226) && (b =? 129) && (c =? 159))
   || ((a =? 227) && (b =? 128) && (c =? 128)))%N.

(** Drops the white space a byte list starts with; [fwd] tells whether
    the list is in reading order or reversed. *)
Fixpoint drop_space (fwd : bool) (l : list N) : list N :=
  match l with
  | [] => []
  | a :: l1 =>
      if is_space1 a then drop_space fwd l1
      else match l1 with
           | [] => l
           | b :: l2 =>
               if (if fwd then is_space2 a b else is_space2 b a)
               then drop_space fwd l2
               else match l2 with
                    | [] => l
                    | c :: l3 =>
                        if (if fwd then is_space3 a b c else is_space3 c b a)
                        then drop_space fwd l3
                        else l
                    end
           end
  end.

(** [s.strip()] *)
Definition strip (s : string) : string :=
  of_bytes (rev (drop_space false (rev (drop_space true (bytes_of s))))).

(** [s.replace(BOM, empty)]: every occurrence of the byte-order mark
    U+FEFF (bytes EF BB BF) is removed. *)
Fixpoint remove_bom (l : list N) : list N :=
  match l with
  | [] => []
  | a :: l1 =>
      match l1 with
      | b :: (c :: l3) =>
          if ((a =? 239) && (b =? 187) && (c =? 191))%N then remove_bom l3
          else a :: remove_bom l1
      | _ => a :: remove_bom l1
      end
  end.

Definition replace_bom (s : string) : string :=
  of_bytes (remove_bom (bytes_of s)).

(** [sub in s] for two strings. *)
Fixpoint contains (sub s : string) : bool :=
  String.prefix sub s
  || match s with
     | EmptyString => false
     | String _ s' => contains sub s'
     end.

(** [not s]: the empty string is the only falsy one. *)
Definition falsy (s : string) : bool :=
  match s with EmptyString => true | _ => false end.

End PyStr.

(** ** Parsed JSON, as [response.json()] returns it

    A [dict] is the list of its items in insertion order, which
    [json.dumps] and [str] follow; the parser lists every key once.  A
    [float] is a binary64 value, carried as a [spec_float]. *)

Inductive json :=
| JNull
| JBool (b : bool)
| JInt (z : Z)
| JFloat (f : spec_float)
| JStr (s : string)
| JArr (l : list json)
| JObj (items : list (string * json)).

(** ** Exceptions

    Every constructor is a subclass of [Exception]; the argument is the
    text [str(e)] gives.  [HTTPError] is [requests.exceptions.HTTPError],
    [RequestException] stands for the other [requests] exceptions
    (connection errors, time-outs, a body that is not JSON), and
    [OtherError] for any other exception a library call lets through. *)

Inductive exn :=
| HTTPError (msg : string)
| RequestException (msg : string)
| ValueError (msg : string)
| TypeError (msg : string)
| KeyError (msg : string)
| AttributeError (msg : string)
| NameError (msg : string)
| OtherError (msg : string).

(** [str(e)] *)
Definition str_exn (e : exn) : string :=
  match e with
  | HTTPError m | RequestException m | ValueError m | TypeError m
  | KeyError m | AttributeError m | NameError m | OtherError m => m
  end.

(** [isinstance(e, requests.exceptions.HTTPError)] *)
Definition is_HTTPError (e : exn) : bool :=
  match e with HTTPError _ => true | _ => false end.

(** [isinstance(e, requests.exceptions.RequestException)] *)
Definition is_RequestException (e : exn) : bool :=
  match e with HTTPError _ | RequestException _ => true | _ => false end.

Inductive result (A : Type) :=
| Ok (a : A)
| Raise (e : exn).
Arguments Ok {A} a.
Arguments Raise {A} e.

(** ** The Python runtime and the libraries, as interfaces *)

Class PyRuntime := {
  (** [json.dumps(v)] *)
  json_dumps : json -> string;
  (** [str(v)] of a parsed value that is not itself a string *)
  py_repr : json -> string;
  (** text of the [TypeError] of [key in v] when [v] is no container *)
  msg_not_container : json -> string;
  (** text of the [TypeError] of [v[key]] when [v] is no dict *)
  msg_bad_subscript : json -> string;
  (** [urlparse(url)]: the scheme and the network location, or the
      exception the parser raises *)
  urlparse : string -> result (string * string)
}.

(** An HTTP response: what [raise_for_status] and [json()] read. *)
Record response := {
  status_code : Z;
  reason : string;
  resp_url : string;
  resp_json : result json
}.

Class Network (W : Type) := {
  (** [requests.get(url, headers=...)] *)
  requests_get : string -> list (string * string) -> W -> W * result response;
  (** [requests.post(url, headers=..., json=...)] *)
  requests_post :
    string -> list (string * string) -> json -> W -> W * result response;
  (** [credentials.refresh(Request())] followed by [credentials.token] *)
  credentials_refresh : W -> W * result string
}.

(** ** Effects: file system, network, trace *)

(** A CSV file, as [csv.reader] yields it and [csv.writer] takes it: one
    list of cells per record. *)
Definition csv : Type := list (list string).

(** How writing a table to a file that has been opened ends: every
    record is in the file, or an exception broke the writing off
    (a text that cannot be encoded, a full disk) and the file, emptied
    when it was opened, holds what was written until then. *)
Inductive written :=
| Stored
| Torn (kept : csv) (e : exn).

(** What the operating system answers when the script writes a file. *)
Class Storage (W : Type) := {
  (** [open(path, mode=w, ...)]: the file is created or emptied, unless
      the call raises (no such directory, no permission) *)
  open_write : string -> W -> W * result unit;
  (** [writer.writeheader(); writer.writerows(...)] and the closing of
      the file when the [with] block is left *)
  write_records : string -> csv -> W -> W * written
}.

Inductive level := INFO | WARNING | ERROR.

(** What the script does to the outside, in the order it does it.  A log
    record carries its level and the fixed leading text of its message
    ([logger.debug] records are below the configured level). *)
Inductive event :=
| EvGet (url : string)
| EvPost (url : string) (body : json)
| EvRefresh
| EvExists (path : string)
| EvRead (path : string)
| EvWrite (path : string)
| EvSleep (seconds : Z)
| EvLog (lvl : level) (msg : string).

Record state (W : Type) := mkState {
  world : W;
  fs : gmap string csv;
  trace : list event
}.
Arguments mkState {W} world fs trace.
Arguments world {W} s.
Arguments fs {W} s.
Arguments trace {W} s.

(** A computation that may change the state and either returns or
    raises. *)
Definition M (W A : Type) : Type := state W -> state W * result A.

#[export] Instance M_ret {W} : MRet (M W) := fun A a s => (s, Ok a).

#[export] Instance M_bind {W} : MBind (M W) := fun A B k m s =>
  match m s with
  | (s', Ok a) => k a s'
  | (s', Raise e) => (s', Raise e)
  end.

(** [raise e] *)
Definition raise {W A} (e : exn) : M W A := fun s => (s, Raise e).

(** [try: m except Exception as e: h e] *)
Definition try_except {W A} (m : M W A) (h : exn -> M W A) : M W A := fun s =>
  match m s with
  | (s', Ok a) => (s', Ok a)
  | (s', Raise e) => h e s'
  end.

Definition lift {W A} (r : result A) : M W A := fun s => (s, r).

Definition emit {W} (ev : event) : M W unit := fun s =>
  (mkState (world s) (fs s) (trace s ++ [ev]), Ok tt).

Definition log {W} (lvl : level) (msg : string) : M W unit :=
  emit (EvLog lvl msg).

(** A call to the network interface changes the world only. *)
Definition call {W A} (f : W -> W * result A) : M W A := fun s =>
  let (w, r) := f (world s) in (mkState w (fs s) (trace s), r).

(** ** Builtins *)

Section Builtins.
Context `{PyRuntime}.

(** [str(v)], as an f-string formats a parsed value. *)
Definition py_str (v : json) : string :=
  match v with
  | JStr s => s
  | _ => py_repr v
  end.

(** [v == s] for a string [s] *)
Definition py_eq_str (v : json) (s : string) : bool :=
  match v with
  | JStr s' => String.eqb s' s
  | _ => false
  end.

(** [d.get(key)] on the items of a [dict] *)
Definition dict_get (items : list (string * json)) (key : string)
  : option json :=
  snd <$> List.find (fun kv => String.eqb kv.1 key) items.

(** [key in v] *)
Definition py_in (key : string) (v : json) : result bool :=
  match v with
  | JObj items => Ok (bool_decide (is_Some (dict_get items key)))
  | JArr l => Ok (existsb (fun x => py_eq_str x key) l)
  | JStr s => Ok (PyStr.contains key s)
  | _ => Raise (TypeError (msg_not_container v))
  end.

(** [v[key]] for a string [key] *)
Definition py_getitem (v : json) (key : string) : result json :=
  match v with
  | JObj items =>
      match dict_get items key with
      | Some x => Ok x
      | None => Raise (KeyError ("'" +:+ key +:+ "'"))
      end
  | _ => Raise (TypeError (msg_bad_subscript v))
  end.

(** [response.raise_for_status()] of [requests] *)
Definition raise_for_status (r : response) : result unit :=
  if (400 <=? status_code r) && (status_code r <? 500) then
    Raise (HTTPError (pretty (status_code r) +:+ " Client Error: "
                      +:+ reason r +:+ " for url: " +:+ resp_url r))
  else if (500 <=? status_code r) && (status_code r <? 600) then
    Raise (HTTPError (pretty (status_code r) +:+ " Server Error: "
                      +:+ reason r +:+ " for url: " +:+ resp_url r))
  else Ok tt.

End Builtins.

(** ** The functions of [main.py] *)

(** A submission outcome: the pair (status, error text or [None]). *)
Definition outcome : Type := string * option string.

(** The three status texts the submitters return: Success, Success
    without confirmation (no task identifier in the reply) and Failure. *)
Definition ST_OK : string := "успешно".
Definition ST_OK_NO_TASK : string := "успешно (без task_id)".
Definition ST_FAIL : string := "неуспешно".

Definition YANDEX_API_BASE : string := "https://api.webmaster.yandex.net/v4".
Definition GOOGLE_API_BASE : string :=
  "https://indexing.googleapis.com/v3/urlNotifications:publish".

Section Main.
Context `{PyRuntime} {W : Type} `{Network W} `{Storage W}.
(** The two settings read from the environment at start-up. *)
Variables YANDEX_API_TOKEN SITE_URL : string.

Definition YANDEX_HEADERS : list (string * string) :=
  [("Authorization", "OAuth " +:+ YANDEX_API_TOKEN);
   ("Content-Type", "application/json")].

Definition get_access_token : M W string :=
  try_except
    (emit EvRefresh;; call credentials_refresh)
    (fun e => log ERROR "Ошибка при получении токена Google";; raise e).

Definition build_yandex_host_id (site_url : string) : M W string :=
  try_except
    ('(scheme, netloc) ← lift (urlparse site_url);
     if PyStr.falsy scheme || PyStr.falsy netloc then
       raise (ValueError ("Некорректный URL сайта: " +:+ site_url))
     else
       let port := if String.eqb scheme "https" then "443" else "80" in
       let host_id := scheme +:+ ":" +:+ netloc +:+ ":" +:+ port in
       log INFO "Сформирован host_id";;
       mret host_id)
    (fun e => log ERROR "Ошибка при формировании host_id";; raise e).

Definition get_yandex_user_id : M W json :=
  try_except
    (let url := YANDEX_API_BASE +:+ "/user" in
     emit (EvGet url);;
     response ← call (requests_get url YANDEX_HEADERS);
     lift (raise_for_status response);;
     data ← lift (resp_json response);
     has ← lift (py_in "user_id" data);
     if negb has then
       raise (ValueError ("В ответе API отсутствует user_id: " +:+ py_str data))
     else
       user_id ← lift (py_getitem data "user_id");
       log INFO "Получен user-id";;
       mret user_id)
    (fun e =>
       if is_RequestException e then
         log ERROR "Ошибка при запросе user-id";; raise e
       else raise e).

(** Reifies the exception of [m], as entering a [try] block does. *)
Definition attempt {A} (m : M W A) : M W (result A) := fun s =>
  let (s', r) := m s in (s', Ok r).

(** The local variable [response] inside an [except] clause: unbound
    when [requests.post] itself raised. *)
Definition local_response (bound : option response) : result response :=
  match bound with
  | Some r => Ok r
  | None =>
      Raise (NameError "cannot access local variable 'response' where it is not associated with a value")
  end.

(** The f-string that gives [api_url] in [send_reindex_yandex]. *)
Definition yandex_api_url (user_id : json) (host_id : string) : string :=
  YANDEX_API_BASE +:+ "/user/" +:+ py_str user_id
  +:+ "/hosts/" +:+ host_id +:+ "/recrawl/queue".

Definition send_reindex_yandex (user_id : json) (host_id url : string)
  : M W outcome :=
  let payload := JObj [("url", JStr url)] in
  let api_url := yandex_api_url user_id host_id in
  let except (bound : option response) (e : exn) : M W outcome :=
    if is_HTTPError e then
      log ERROR "Ошибка HTTP при переиндексации Яндекса";;
      try_except
        (r ← lift (local_response bound);
         error_details ← lift (resp_json r);
         log ERROR "Детали ошибки Яндекс API";;
         mret (ST_FAIL, Some (json_dumps error_details)))
        (fun _ => mret (ST_FAIL, Some (str_exn e)))
    else
      log ERROR "Неожиданная ошибка при переиндексации Яндекса";;
      mret (ST_FAIL, Some (str_exn e)) in
  posted ← attempt (emit (EvPost api_url payload);;
                    call (requests_post api_url YANDEX_HEADERS payload));
  match posted with
  | Raise e => except None e
  | Ok response =>
      try_except
        (lift (raise_for_status response);;
         response_data ← lift (resp_json response);
         has_error ← lift (py_in "error" response_data);
         if (has_error : bool) then
           err ← lift (py_getitem response_data "error");
           mret (ST_FAIL, Some ("Ошибка API: " +:+ py_str err))
         else
           has_task ← lift (py_in "task_id" response_data);
           if (has_task : bool) then mret (ST_OK, None)
           else mret (ST_OK_NO_TASK, None))
        (except (Some response))
  end.

(** The dictionaries [headers] and [payload] of [publish_url_google]. *)
Definition google_headers (access_token : string) : list (string * string) :=
  [("Authorization", "Bearer " +:+ access_token);
   ("Content-Type", "application/json")].

Definition google_payload (url action : string) : json :=
  JObj [("url", JStr url); ("type", JStr action)].

Definition publish_url_google (url action : string) : M W outcome :=
  access_token ← get_access_token;
  let headers := google_headers access_token in
  let payload := google_payload url action in
  let except (bound : option response) (e : exn) : M W outcome :=
    if is_HTTPError e then
      log ERROR "Ошибка HTTP при переиндексации Google";;
      try_except
        (r ← lift (local_response bound);
         error_details ← lift (resp_json r);
         log ERROR "Детали ошибки Google API";;
         mret (ST_FAIL, Some (json_dumps error_details)))
        (fun _ => mret (ST_FAIL, Some (str_exn e)))
    else
      log ERROR "Неожиданная ошибка при переиндексации Google";;
      mret (ST_FAIL, Some (str_exn e)) in
  posted ← attempt (emit (EvPost GOOGLE_API_BASE payload);;
                    call (requests_post GOOGLE_API_BASE headers payload));
  match posted with
  | Raise e => except None e
  | Ok response =>
      try_except
        (lift (raise_for_status response);;
         response_data ← lift (resp_json response);
         has_meta ← lift (py_in "urlNotificationMetadata" response_data);
         if (has_meta : bool) then
           metadata ← lift (py_getitem response_data "urlNotificationMetadata");
           has_update ← lift (py_in "latestUpdate" metadata);
           has_type ← (if (has_update : bool) then
                         latest ← lift (py_getitem metadata "latestUpdate");
                         lift (py_in "type" latest)
                       else mret false);
           if (has_type : bool) then
             latest ← lift (py_getitem metadata "latestUpdate");
             type ← lift (py_getitem latest "type");
             if py_eq_str type action then mret (ST_OK, None)
             else
               mret (ST_FAIL,
                     Some ("Ожидался тип " +:+ action +:+ ", получен "
                           +:+ py_str type))
           else mret (ST_OK, None)
         else mret (ST_FAIL, Some "Неожиданный формат ответа от Google API"))
        (except (Some response))
  end.

(** *** The batch *)

(** One entry of [results]. *)
Record result_row := {
  URL : string;
  Yandex_Status : string;
  Yandex_Error : string;
  Google_Status : string;
  Google_Error : string
}.

(** The row [csv.DictReader] yields for one record: the cells zipped
    with the field names, a later duplicate name winning, and [None]
    for every name the record is too short for.  (Cells beyond the
    field names go under the key [None], which no lookup below reads.) *)
Definition DictReader_row (fieldnames cells : list string)
  : gmap string (option string) :=
  let d := foldl (fun d kv => <[ kv.1 := Some kv.2 ]> d) ∅
                 (zip fieldnames cells) in
  foldl (fun d key => <[ key := None ]> d) d
        (drop (length cells) fieldnames).

(** [row.get(key, default)] *)
Definition row_get (row : gmap string (option string)) (key : string)
    (default : option string) : option string :=
  match row !! key with
  | Some v => v
  | None => default
  end.

(** [v.strip()] for a cell [v] that may be [None] *)
Definition cell_strip (v : option string) : result string :=
  match v with
  | Some s => Ok (PyStr.strip s)
  | None => Raise (AttributeError "'NoneType' object has no attribute 'strip'")
  end.

(** [e if e else empty] *)
Definition or_empty (e : option string) : string :=
  match e with
  | Some s => if PyStr.falsy s then "" else s
  | None => ""
  end.

(** [row.get(URL, empty)] on the row of one record. *)
Definition row_url (fieldnames cells : list string) : option string :=
  row_get (DictReader_row fieldnames cells) "URL" (Some "").

(** The variables the loop updates. *)
Record loop_state := {
  total_urls : nat;
  processed_urls : nat;
  results : list result_row
}.

(** The body of [for row in reader]. *)
Definition loop_body (user_id : json) (host_id : string)
    (fieldnames : list string) (st : loop_state) (cells : list string)
  : M W loop_state :=
  let total := S (total_urls st) in
  url ← lift (cell_strip (row_url fieldnames cells));
  if PyStr.falsy url then
    log WARNING "Пропуск пустого URL в строке";;
    mret {| total_urls := total;
            processed_urls := processed_urls st;
            results := results st |}
  else
    log INFO "Обработка URL";;
    '(status_yandex, error_yandex) ← send_reindex_yandex user_id host_id url;
    '(status_google, error_google) ← publish_url_google url "URL_UPDATED";
    let results' :=
      (results st ++ [ {| URL := url;
                          Yandex_Status := status_yandex;
                          Yandex_Error := or_empty error_yandex;
                          Google_Status := status_google;
                          Google_Error := or_empty error_google |} ])%list in
    log INFO "Результат";;
    emit (EvSleep 1);;
    mret {| total_urls := total;
            processed_urls := S (processed_urls st);
            results := results' |}.

(** [for row in reader: ...] over the records after the header;
    [DictReader] passes over the empty ones. *)
Fixpoint for_rows (user_id : json) (host_id : string)
    (fieldnames : list string) (records : csv) (st : loop_state)
  : M W loop_state :=
  match records with
  | [] => mret st
  | [] :: records' => for_rows user_id host_id fieldnames records' st
  | cells :: records' =>
      st' ← loop_body user_id host_id fieldnames st cells;
      for_rows user_id host_id fieldnames records' st'
  end.

(** The records [DictReader] makes rows of: the non-empty ones. *)
Definition data_rows (records : csv) : list (list string) :=
  List.filter (fun cells => negb (bool_decide (cells = []))) records.

Definition output_fieldnames : list string :=
  ["URL"; "Yandex_Status"; "Yandex_Error"; "Google_Status"; "Google_Error"].

(** What [writer.writeheader(); writer.writerows(results)] writes. *)
Definition output_records (rs : list result_row) : csv :=
  output_fieldnames
    :: ((fun r => [URL r; Yandex_Status r; Yandex_Error r;
                   Google_Status r; Google_Error r]) <$> rs).

(** [os.path.exists(path)] *)
Definition path_exists (path : string) : M W bool := fun s =>
  (mkState (world s) (fs s) (trace s ++ [EvExists path]),
   Ok (bool_decide (is_Some (fs s !! path)))).

(** [open(path, mode=r)] with [csv.DictReader] over it *)
Definition open_read (path : string) : M W csv := fun s =>
  match fs s !! path with
  | Some records =>
      (mkState (world s) (fs s) (trace s ++ [EvRead path]), Ok records)
  | None => (s, Raise (OtherError "No such file or directory"))
  end.

(** [with open(path, mode=w, ...) as csvfile:] and the writing of the
    records inside it.  When [open] raises the file is left as it was;
    when the writing raises, the file holds what had been written. *)
Definition write_into (path : string) (records : csv) : M W unit := fun s =>
  let (w, done) := write_records path records (world s) in
  match done with
  | Stored => (mkState w (<[ path := records ]> (fs s)) (trace s), Ok tt)
  | Torn kept e => (mkState w (<[ path := kept ]> (fs s)) (trace s), Raise e)
  end.

Definition write_file (path : string) (records : csv) : M W unit :=
  emit (EvWrite path);;
  call (open_write path);;
  write_into path records.

(** [[f.strip().replace(BOM, empty) for f in reader.fieldnames]] *)
Definition clean_fieldnames (names : list string) : list string :=
  (fun f => PyStr.replace_bom (PyStr.strip f)) <$> names.

(** [reader.fieldnames] after the clean-up: the first record, cleaned
    unless it is empty; [None] for a file without records. *)
Definition reader_fieldnames (records : csv) : option (list string) :=
  match head records with
  | None => None
  | Some [] => Some []
  | Some names => Some (clean_fieldnames names)
  end.

(** The first [try] block of [process_urls]. *)
Definition resolve_identity : M W (json * string) :=
  host_id ← build_yandex_host_id SITE_URL;
  user_id ← get_yandex_user_id;
  log INFO "Инициализация завершена";;
  mret (user_id, host_id).

Definition process_urls (input_file output_file : string) : M W unit :=
  init ← attempt resolve_identity;
  match init with
  | Raise e => log ERROR "Ошибка при инициализации"
  | Ok (user_id, host_id) =>
      found ← path_exists input_file;
      if negb found then log ERROR "Входной файл не найден"
      else
        try_except
          (records ← open_read input_file;
           match reader_fieldnames records with
           | None =>
               (* the membership test on [None] *)
               raise (TypeError (msg_not_container JNull))
           | Some fieldnames =>
               if negb (bool_decide ("URL" ∈ fieldnames)) then
                 log ERROR "В файле отсутствует колонка 'URL'"
               else
                 st ← for_rows user_id host_id fieldnames (tail records)
                        {| total_urls := 0; processed_urls := 0;
                           results := [] |};
                 write_file output_file (output_records (results st));;
                 log INFO "Обработка завершена";;
                 log INFO "Результаты записаны в"
           end)
          (fun e => log ERROR "Ошибка при обработке файла")
  end.

End Main.

(** ** A runtime and a network to run the model on

    The theorems below hold for every [PyRuntime], every [Network] and
    every [Storage].
    To evaluate the model on concrete inputs this module gives one
    instance of each.  The runtime follows CPython 3.12 on the values the
    examples use: [json.dumps] (with its default [ensure_ascii]) and
    [str] on values without floats and with printable characters only,
    and [urlsplit] on URLs whose network location is ASCII without a
    bracketed host.  It does not print floats: every float is written
    as [0.0]. *)

Module Sample.

Definition chr (n : N) : string := String (ascii_of_N n) EmptyString.
Definition dquote : string := chr 34.
Definition squote : string := chr 39.
Definition backslash : string := chr 92.

Definition hex_digit (n : N) : string :=
  chr (if (n <? 10)%N then 48 + n else 87 + n)%N.

Definition hex2 (n : N) : string :=
  hex_digit (n / 16 mod 16) +:+ hex_digit (n mod 16).

Definition hex4 (n : N) : string :=
  hex2 (n / 256) +:+ hex2 (n mod 256).

(** The code points of a UTF-8 byte list. *)
Fixpoint code_points (fuel : nat) (l : list N) : list N :=
  match fuel, l with
  | O, _ | _, [] => []
  | S fuel', a :: l1 =>
      if (a <? 128)%N then a :: code_points fuel' l1
      else match l1 with
           | b :: l2 =>
               if (a <? 224)%N then
                 ((a - 192) * 64 + (b - 128))%N :: code_points fuel' l2
               else match l2 with
                    | c :: l3 =>
                        if (a <? 240)%N then
                          ((a - 224) * 4096 + (b - 128) * 64 + (c - 128))%N
                            :: code_points fuel' l3
                        else match l3 with
                             | d :: l4 =>
                                 ((a - 240) * 262144 + (b - 128) * 4096
                                  + (c - 128) * 64 + (d - 128))%N
                                   :: code_points fuel' l4
                             | [] => []
                             end
                    | [] => []
                    end
           | [] => []
           end
  end.

(** One character of a JSON string literal, as [json.dumps] writes it. *)
Definition dumps_char (cp : N) : string :=
  if (cp =? 34)%N then backslash +:+ dquote
  else if (cp =? 92)%N then backslash +:+ backslash
  else if (cp =? 10)%N then backslash +:+ "n"
  else if (cp =? 13)%N then backslash +:+ "r"
  else if (cp =? 9)%N then backslash +:+ "t"
  else if (cp =? 8)%N then backslash +:+ "b"
  else if (cp =? 12)%N then backslash +:+ "f"
  else if PyStr.in_range 32 126 cp then chr cp
  else if (cp <? 65536)%N then backslash +:+ "u" +:+ hex4 cp
  else
    let v := (cp - 65536)%N in
    backslash +:+ "u" +:+ hex4 (55296 + v / 1024)%N
    +:+ backslash +:+ "u" +:+ hex4 (56320 + v mod 1024)%N.

Definition concat_map {A} (f : A -> string) (l : list A) : string :=
  foldr (fun x acc => f x +:+ acc) "" l.

Definition dumps_str (s : string) : string :=
  let bytes := PyStr.bytes_of s in
  dquote +:+ concat_map dumps_char (code_points (length bytes) bytes)
  +:+ dquote.

Definition join (sep : string) (l : list string) : string :=
  match l with
  | [] => ""
  | x :: l' => x +:+ concat_map (fun y => sep +:+ y) l'
  end.

Fixpoint dumps (v : json) : string :=
  match v with
  | JNull => "null"
  | JBool true => "true"
  | JBool false => "false"
  | JInt z => pretty z
  | JFloat _ => "0.0"
  | JStr s => dumps_str s
  | JArr l => "[" +:+ join ", " (List.map dumps l) +:+ "]"
  | JObj items =>
      "{" +:+ join ", " (List.map (fun kv => dumps_str (fst kv) +:+ ": "
                                             +:+ dumps (snd kv)) items)
      +:+ "}"
  end.

(** One byte of [repr(s)] between the quotes [q]. *)
Definition repr_byte (q b : N) : string :=
  if (b =? 92)%N then backslash +:+ backslash
  else if (b =? q)%N then backslash +:+ chr q
  else if (b =? 10)%N then backslash +:+ "n"
  else if (b =? 13)%N then backslash +:+ "r"
  else if (b =? 9)%N then backslash +:+ "t"
  else if (b <? 32)%N || (b =? 127)%N then backslash +:+ "x" +:+ hex2 b
  else chr b.

Definition repr_str (s : string) : string :=
  let q := if PyStr.contains squote s && negb (PyStr.contains dquote s)
           then 34%N else 39%N in
  chr q +:+ concat_map (repr_byte q) (PyStr.bytes_of s) +:+ chr q.

Fixpoint repr (v : json) : string :=
  match v with
  | JNull => "None"
  | JBool true => "True"
  | JBool false => "False"
  | JInt z => pretty z
  | JFloat _ => "0.0"
  | JStr s => repr_str s
  | JArr l => "[" +:+ join ", " (List.map repr l) +:+ "]"
  | JObj items =>
      "{" +:+ join ", " (List.map (fun kv => repr_str (fst kv) +:+ ": "
                                             +:+ repr (snd kv)) items)
      +:+ "}"
  end.

Definition type_name (v : json) : string :=
  match v with
  | JNull => "NoneType"
  | JBool _ => "bool"
  | JInt _ => "int"
  | JFloat _ => "float"
  | JStr _ => "str"
  | JArr _ => "list"
  | JObj _ => "dict"
  end.

Definition not_container (v : json) : string :=
  "argument of type '" +:+ type_name v +:+ "' is not iterable".

Definition bad_subscript (v : json) : string :=
  match v with
  | JArr _ => "list indices must be integers or slices, not str"
  | JStr _ => "string indices must be integers, not 'str'"
  | _ => "'" +:+ type_name v +:+ "' object is not subscriptable"
  end.

(** [urlsplit]: scheme and network location. *)
Definition is_alpha (a : N) : bool :=
  PyStr.in_range 65 90 a || PyStr.in_range 97 122 a.

Definition is_scheme_char (a : N) : bool :=
  is_alpha a || PyStr.in_range 48 57 a
  || (a =? 43)%N || (a =? 45)%N || (a =? 46)%N.

Definition lower (a : N) : N :=
  if PyStr.in_range 65 90 a then (a + 32)%N else a.

Fixpoint span {A} (p : A -> bool) (l : list A) : list A * list A :=
  match l with
  | [] => ([], [])
  | x :: l' =>
      if p x then let (a, b) := span p l' in (x :: a, b) else ([], l)
  end.

Definition urlsplit (url : string) : result (string * string) :=
  let u := snd (span (fun a => (a <=? 32)%N) (PyStr.bytes_of url)) in
  let u := List.filter
             (fun a => negb ((a =? 9) || (a =? 10) || (a =? 13))%N) u in
  let (before, after) := span (fun a => negb (a =? 58)%N) u in
  let (scheme, u) :=
    match before, after with
    | first :: _, _ :: rest =>
        if is_alpha first && forallb is_scheme_char before
        then (lower <$> before, rest) else ([], u)
    | _, _ => ([], u)
    end in
  match u with
  | 47%N :: (47%N :: rest) =>
      let netloc :=
        fst (span (fun a => negb ((a =? 47) || (a =? 63) || (a =? 35))%N)
                  rest) in
      let has c := existsb (N.eqb c) netloc in
      if xorb (has 91%N) (has 93%N) then Raise (ValueError "Invalid IPv6 URL")
      else Ok (PyStr.of_bytes scheme, PyStr.of_bytes netloc)
  | _ => Ok (PyStr.of_bytes scheme, "")
  end.

#[export] Instance runtime : PyRuntime := {|
  json_dumps := dumps;
  py_repr := repr;
  msg_not_container := not_container;
  msg_bad_subscript := bad_subscript;
  urlparse := urlsplit
|}.

(** A scripted network: the replies are functions of the request and of
    the number of calls made before it. *)
Record net := {
  calls : nat;
  on_get : string -> result response;
  on_post : nat -> string -> json -> result response;
  on_refresh : nat -> result string
}.

Definition tick (w : net) : net :=
  {| calls := S (calls w); on_get := on_get w; on_post := on_post w;
     on_refresh := on_refresh w |}.

#[export] Instance network : Network net := {|
  requests_get url _ w := (tick w, on_get w url);
  requests_post url _ body w := (tick w, on_post w (calls w) url body);
  credentials_refresh w := (tick w, on_refresh w (calls w))
|}.

(** A scripted disk.  The empty path and a path that ends in a slash
    cannot be opened for writing; [/dev/full] opens, and every write to
    it fails for lack of space; every other write succeeds. *)
Definition ends_in_slash (path : string) : bool :=
  match rev (list_ascii_of_string path) with
  | c :: _ => Ascii.eqb c "/"%char
  | [] => false
  end.

#[export] Instance storage : Storage net := {|
  open_write path w :=
    (w,
     if String.eqb path "" then
       Raise (OtherError "[Errno 2] No such file or directory: ''")
     else if ends_in_slash path then
       Raise (OtherError ("[Errno 21] Is a directory: '" +:+ path +:+ "'"))
     else Ok tt);
  write_records path records w :=
    (w,
     if String.eqb path "/dev/full" then
       Torn [] (OtherError "[Errno 28] No space left on device")
     else Stored)
|}.

Definition http (code : Z) (why : string) (body : result json) : response :=
  {| status_code := code; reason := why; resp_url := ""; resp_json := body |}.

(** The reply 200 with a JSON body. *)
Definition accepted (body : json) : result response :=
  Ok (http 200 "OK" (Ok body)).

(** A network on which everything succeeds: the user id is 42, the
    primary API queues the task, the secondary API confirms the
    update. *)
Definition notified : json :=
  JObj [("urlNotificationMetadata",
         JObj [("url", JStr "https://a.com/");
               ("latestUpdate",
                JObj [("url", JStr "https://a.com/");
                      ("type", JStr "URL_UPDATED")])])].

Definition succeeding : net :=
  {| calls := 0;
     on_get := fun _ => accepted (JObj [("user_id", JInt 42)]);
     on_post := fun _ url _ =>
       if String.eqb url GOOGLE_API_BASE then accepted notified
       else accepted (JObj [("task_id", JStr "c7fe80c0")]);
     on_refresh := fun _ => Ok "ya29.token" |}.

(** [succeeding], with another reply to every POST. *)
Definition posting (reply : result response) : net :=
  {| calls := 0; on_get := on_get succeeding;
     on_post := fun _ _ _ => reply;
     on_refresh := on_refresh succeeding |}.

(** [succeeding], with the primary API answering 500. *)
Definition primary_down : net :=
  {| calls := 0; on_get := on_get succeeding;
     on_post := fun n url body =>
       if String.eqb url GOOGLE_API_BASE then accepted notified
       else Ok (http 500 "Internal Server Error"
                  (Ok (JObj [("error_code", JStr "INTERNAL")])));
     on_refresh := on_refresh succeeding |}.

(** [succeeding], with every token refresh failing. *)
Definition token_refused : net :=
  {| calls := 0; on_get := on_get succeeding; on_post := on_post succeeding;
     on_refresh := fun _ => Raise (OtherError "invalid_grant") |}.

Definition start (w : net) (files : gmap string csv) : state net :=
  mkState w files [].

(** One primary submission, one secondary submission and one batch on
    a network, with the sample runtime. *)
Definition send (w : net) : result outcome :=
  (send_reindex_yandex "TOKEN" (JInt 42) "https:example.com:443"
     "https://a.com/" (start w ∅)).2.

Definition publish (w : net) : result outcome :=
  (publish_url_google "https://a.com/" "URL_UPDATED" (start w ∅)).2.

Definition run (w : net) (files : gmap string csv)
  : state net * result unit :=
  process_urls "TOKEN" "https://example.com" "urls.csv" "results.csv"
    (start w files).

End Sample.

(** ** Classification tables

    The outcome of each submitter as a function of the reply to its POST,
    read off the [try] block and its [except] clauses.  The run lemmas of
    the next section compare them with the code. *)

(** [null], a boolean or a number: no container, so [key in v] raises. *)
Definition scalar (v : json) : bool :=
  match v with
  | JNull | JBool _ | JInt _ | JFloat _ => true
  | _ => false
  end.

Section Tables.
Context `{PyRuntime}.

Definition failed (e : exn) : outcome := (ST_FAIL, Some (str_exn e)).

(** The [except HTTPError] clause, [response] being bound. *)
Definition http_failure (r : response) (e : exn) : outcome :=
  match resp_json r with
  | Ok error_details => (ST_FAIL, Some (json_dumps error_details))
  | Raise _ => failed e
  end.

Definition yandex_body (response_data : json) : outcome :=
  match py_in "error" response_data with
  | Raise e => failed e
  | Ok true =>
      match py_getitem response_data "error" with
      | Raise e => failed e
      | Ok err => (ST_FAIL, Some ("Ошибка API: " +:+ py_str err))
      end
  | Ok false =>
      match py_in "task_id" response_data with
      | Raise e => failed e
      | Ok true => (ST_OK, None)
      | Ok false => (ST_OK_NO_TASK, None)
      end
  end.

Definition yandex_table (posted : result response) : outcome :=
  match posted with
  | Raise e => failed e
  | Ok r =>
      match raise_for_status r with
      | Raise e => http_failure r e
      | Ok _ =>
          match resp_json r with
          | Raise e => failed e
          | Ok response_data => yandex_body response_data
          end
      end
  end.

Definition google_update (action : string) (latest : json) : outcome :=
  match py_in "type" latest with
  | Raise e => failed e
  | Ok false => (ST_OK, None)
  | Ok true =>
      match py_getitem latest "type" with
      | Raise e => failed e
      | Ok type =>
          if py_eq_str type action then (ST_OK, None)
          else (ST_FAIL, Some ("Ожидался тип " +:+ action +:+ ", получен "
                               +:+ py_str type))
      end
  end.

Definition google_metadata (action : string) (metadata : json) : outcome :=
  match py_in "latestUpdate" metadata with
  | Raise e => failed e
  | Ok false => (ST_OK, None)
  | Ok true =>
      match py_getitem metadata "latestUpdate" with
      | Raise e => failed e
      | Ok latest => google_update action latest
      end
  end.

Definition google_body (action : string) (response_data : json) : outcome :=
  match py_in "urlNotificationMetadata" response_data with
  | Raise e => failed e
  | Ok false => (ST_FAIL, Some "Неожиданный формат ответа от Google API")
  | Ok true =>
      match py_getitem response_data "urlNotificationMetadata" with
      | Raise e => failed e
      | Ok metadata => google_metadata action metadata
      end
  end.

Definition google_table (action : string) (posted : result response)
  : outcome :=
  match posted with
  | Raise e => failed e
  | Ok r =>
      match raise_for_status r with
      | Raise e => http_failure r e
      | Ok _ =>
          match resp_json r with
          | Raise e => failed e
          | Ok response_data => google_body action response_data
          end
      end
  end.

(** The texts an error detail can be taken from: those the runtime
    produces, and those of the exceptions the reply carries. *)
Definition runtime_texts_nonempty : Prop :=
  (forall v, json_dumps v <> "")
  /\ (forall v, msg_not_container v <> "")
  /\ (forall v, msg_bad_subscript v <> "").

Definition reply_texts_nonempty (posted : result response) : Prop :=
  match posted with
  | Raise e => str_exn e <> ""
  | Ok r =>
      match resp_json r with
      | Raise e => str_exn e <> ""
      | Ok _ => True
      end
  end.

(** Success or Success without confirmation. *)
Definition success (status : string) : Prop :=
  status = ST_OK \/ status = ST_OK_NO_TASK.

(** The shape of an outcome: no error text exactly on success, and on
    Failure a text, non-empty under [P]. *)
Definition outcome_shape (P : Prop) (o : outcome) : Prop :=
  (o.2 = None <-> success o.1)
  /\ (o.1 = ST_FAIL -> exists text, o.2 = Some text /\ (P -> text <> "")).

End Tables.

(** The events of identity resolution: log records and GET requests. *)
Definition is_identity_event (ev : event) : Prop :=
  match ev with EvLog _ _ | EvGet _ => True | _ => False end.

(** Neither a submission (POST, token refresh) nor a file write. *)
Definition is_quiet (ev : event) : Prop :=
  match ev with EvPost _ _ | EvRefresh | EvWrite _ => False | _ => True end.

Definition is_log (ev : event) : Prop :=
  match ev with EvLog _ _ => True | _ => False end.

(** ** Start-up and entry point

    The statements [main.py] runs when it is loaded, which read and check
    its settings, and its [__main__] block. *)

(** The settings the module keeps: the token, the site URL and the path
    of the service-account file. *)
Record settings := {
  cfg_token : string;
  cfg_site_url : string;
  cfg_account_file : string
}.

(** [not v] for what [os.getenv] returns: true for [None] and for the
    empty string. *)
Definition unset (v : option string) : bool :=
  match v with
  | None => true
  | Some s => PyStr.falsy s
  end.

(** [str(v)] for what [os.getenv] returns. *)
Definition str_getenv (v : option string) : string := default "None" v.

(** The module-level statements up to the loading of the credentials:
    the log records and path look-ups they make, and the settings or the
    exception that ends the import.  [environ] is the environment after
    [load_dotenv()], [paths] the paths that exist, and
    [from_service_account_file] the loader of [google.oauth2]. *)
Definition startup (environ : gmap string string) (paths : gset string)
    (from_service_account_file : string -> result unit)
  : list event * result settings :=
  let token := environ !! "YANDEX_API_TOKEN" in
  if unset token then
    ([EvLog ERROR "Не указан токен Яндекса в переменных окружения"],
     Raise (ValueError "YANDEX_API_TOKEN не найден в .env файле"))
  else
    let site := environ !! "SITE_URL" in
    if unset site then
      ([EvLog ERROR "Не указан URL сайта в переменных окружения"],
       Raise (ValueError "SITE_URL не найден в .env файле"))
    else
      let file := environ !! "SERVICE_ACCOUNT_FILE" in
      if unset file then
        ([EvLog ERROR "Файл учетных данных Google не найден"],
         Raise (ValueError ("SERVICE_ACCOUNT_FILE не найден: "
                            +:+ str_getenv file)))
      else if negb (bool_decide (str_getenv file ∈ paths)) then
        ([EvExists (str_getenv file);
          EvLog ERROR "Файл учетных данных Google не найден"],
         Raise (ValueError ("SERVICE_ACCOUNT_FILE не найден: "
                            +:+ str_getenv file)))
      else
        match from_service_account_file (str_getenv file) with
        | Raise e =>
            ([EvExists (str_getenv file);
              EvLog ERROR "Ошибка при загрузке учетных данных Google"],
             Raise e)
        | Ok _ =>
            ([EvExists (str_getenv file)],
             Ok {| cfg_token := str_getenv token;
                   cfg_site_url := str_getenv site;
                   cfg_account_file := str_getenv file |})
        end.

Section EntryPoint.
Context `{PyRuntime} {W : Type} `{Network W} `{Storage W}.

(** The [__main__] block, with the settings of the module. *)
Definition main (cfg : settings) : M W unit :=
  log INFO "Запуск процесса переиндексации URL";;
  process_urls (cfg_token cfg) (cfg_site_url cfg) "urls.csv" "results.csv";;
  log INFO "Процесс завершен".

(** The whole script: the module-level statements, then the [__main__]
    block unless an exception ended the import. *)
Definition script (environ : gmap string string) (paths : gset string)
    (from_service_account_file : string -> result unit) : M W unit := fun s =>
  let (evs, loaded) := startup environ paths from_service_account_file in
  let s0 := mkState (world s) (fs s) (trace s ++ evs) in
  match loaded with
  | Raise e => (s0, Raise e)
  | Ok cfg => main cfg s0
  end.

End EntryPoint.

(** A property of the network that every call keeps and under which the
    token refresh succeeds: the credential stays valid during the run. *)
Definition refresh_reliable {W : Type} `{Network W} (Inv : W -> Prop) : Prop :=
  (forall url headers w, Inv w -> Inv (requests_get url headers w).1)
  /\ (forall url headers body w,
        Inv w -> Inv (requests_post url headers body w).1)
  /\ (forall w,
        Inv w ->
        Inv (credentials_refresh w).1
        /\ exists access_token, (credentials_refresh w).2 = Ok access_token).

(** A path the run can write: under the same property of the world,
    opening it for writing succeeds and the writing is not broken off. *)
Definition write_reliable {W : Type} `{Storage W} (Inv : W -> Prop)
    (path : string) : Prop :=
  forall records w,
    Inv w ->
    (open_write path w).2 = Ok tt
    /\ (write_records path records (open_write path w).1).2 = Stored.

(** ** Counting events *)

Definition is_sleep (ev : event) : bool :=
  match ev with EvSleep _ => true | _ => false end.

Definition is_refresh (ev : event) : bool :=
  match ev with EvRefresh => true | _ => false end.

Definition is_post (ev : event) : bool :=
  match ev with EvPost _ _ => true | _ => false end.

Definition count (p : event -> bool) (evs : list event) : nat :=
  length (List.filter p evs).

(** A log record of level ERROR. *)
Definition is_error_log (ev : event) : Prop :=
  match ev with EvLog ERROR _ => True | _ => False end.

(** ** Strings that [strip] leaves alone, and strings it empties *)

(** A string of ASCII white space only (the empty one included). *)
Definition blank (s : string) : bool :=
  forallb PyStr.is_space1 (PyStr.bytes_of s).

(** Whether a byte list starts with a white-space character, and
    whether it ends with one: the tests of [str.isspace] on the first
    and on the last character. *)
Definition starts_space (l : list N) : bool :=
  match l with
  | a :: b :: c :: _ =>
      PyStr.is_space1 a || PyStr.is_space2 a b || PyStr.is_space3 a b c
  | [a; b] => PyStr.is_space1 a || PyStr.is_space2 a b
  | [a] => PyStr.is_space1 a
  | [] => false
  end.

Definition ends_space (l : list N) : bool :=
  match rev l with
  | c :: b :: a :: _ =>
      PyStr.is_space1 c || PyStr.is_space2 b c || PyStr.is_space3 a b c
  | [c; b] => PyStr.is_space1 c || PyStr.is_space2 b c
  | [c] => PyStr.is_space1 c
  | [] => false
  end.

(** A string that neither starts nor ends with white space. *)
Definition tidy (s : string) : bool :=
  negb (starts_space (PyStr.bytes_of s))
  && negb (ends_space (PyStr.bytes_of s)).

(** ** More runs of the sample network *)

Module Scenes.
Import Sample.

(** [succeeding], with the identity endpoint out of reach. *)
Definition unreachable : net :=
  {| calls := 0;
     on_get := fun _ => Raise (RequestException "Connection refused");
     on_post := on_post succeeding;
     on_refresh := on_refresh succeeding |}.

(** The credential of [succeeding] is in use. *)
Definition valid_credential (w : net) : Prop :=
  on_refresh w = on_refresh succeeding.

(** Three data rows, the second with an empty URL. *)
Definition three_rows : csv :=
  [["URL"]; ["https://a.com/"]; [""]; ["https://b.com/"]].

(** The byte-order mark U+FEFF. *)
Definition BOM : string := PyStr.of_bytes [239; 187; 191]%N.

(** An environment with the three settings, the paths that exist and a
    loader that accepts the key file. *)
Definition environ : gmap string string :=
  <[ "YANDEX_API_TOKEN" := "TOKEN" ]>
    (<[ "SITE_URL" := "https://example.com" ]>
       {[ "SERVICE_ACCOUNT_FILE" := "key.json" ]}).

Definition paths : gset string := {[ "key.json" ]}.

Definition loader (path : string) : result unit := Ok tt.

End Scenes.

(** ** Proofs *)

Ltac munfold :=
  unfold mbind, M_bind, mret, M_ret, try_except, attempt, lift, raise, emit,
    log, call in *.

Lemma append_nonempty_r (a b : string) : b <> "" -> a +:+ b <> "".
Proof. destruct a; simpl; [easy | discriminate]. Qed.

Lemma falsy_spec (s : string) : PyStr.falsy s = true <-> s = "".
Proof. destruct s; simpl; split; congruence. Qed.

Section Submitters.
Context `{PyRuntime} {W : Type} `{Network W} `{Storage W}.
Variable token : string.

Lemma raise_for_status_HTTPError r e :
  raise_for_status r = Raise e -> is_HTTPError e = true.
Proof. unfold raise_for_status. repeat case_match; intros [= <-]; done. Qed.

Lemma raise_for_status_text r e :
  raise_for_status r = Raise e -> str_exn e <> "".
Proof.
  unfold raise_for_status.
  repeat case_match; intros [= <-]; simpl;
    apply append_nonempty_r; discriminate.
Qed.

Lemma py_in_not_HTTPError key v e :
  py_in key v = Raise e -> is_HTTPError e = false.
Proof. destruct v; simpl; intros [= <-]; done. Qed.

Lemma py_getitem_not_HTTPError v key e :
  py_getitem v key = Raise e -> is_HTTPError e = false.
Proof. destruct v; simpl; repeat case_match; intros [= <-]; done. Qed.

(** The primary submitter against its table: the outcome. *)
Lemma send_reindex_yandex_run user_id host_id url (s : state W) :
  (send_reindex_yandex token user_id host_id url s).2
  = Ok (yandex_table
          (requests_post (yandex_api_url user_id host_id)
             (YANDEX_HEADERS token) (JObj [("url", JStr url)]) (world s)).2).
Proof.
  unfold send_reindex_yandex, yandex_table, yandex_body, http_failure, failed.
  munfold. simpl.
  destruct (requests_post _ _ _ _) as [w [r|e]]; simpl.
  - destruct (raise_for_status r) as [[]|e] eqn:E; simpl.
    + destruct (resp_json r) as [v|e] eqn:J; simpl.
      * destruct (py_in "error" v) as [[]|e] eqn:I; simpl.
        -- destruct (py_getitem v "error") as [x|e] eqn:G; simpl; [done|].
           by rewrite (py_getitem_not_HTTPError _ _ _ G).
        -- destruct (py_in "task_id" v) as [[]|e] eqn:I2; simpl; try done.
           by rewrite (py_in_not_HTTPError _ _ _ I2).
        -- by rewrite (py_in_not_HTTPError _ _ _ I).
      * destruct (is_HTTPError e); simpl; rewrite ?J; done.
    + rewrite (raise_for_status_HTTPError _ _ E). simpl.
      destruct (resp_json r); done.
  - destruct (is_HTTPError e); done.
Qed.

(** The primary submitter against the outside: one POST, then log
    records only; no file is touched. *)
Lemma send_reindex_yandex_effects user_id host_id url (s : state W) :
  let s' := (send_reindex_yandex token user_id host_id url s).1 in
  fs s' = fs s
  /\ exists logs,
       Forall is_log logs
       /\ trace s' = (trace s ++ EvPost (yandex_api_url user_id host_id)
                                   (JObj [("url", JStr url)]) :: logs)%list.
Proof.
  unfold send_reindex_yandex. munfold. simpl.
  repeat (case_match; simplify_eq/=);
    (split; [done|]); rewrite <- ?app_assoc; simpl;
    (eexists; split; [|reflexivity]); repeat constructor.
Qed.

Lemma get_access_token_run (s : state W) :
  get_access_token s
  = match credentials_refresh (world s) with
    | (w, Ok access_token) =>
        (mkState w (fs s) (trace s ++ [EvRefresh]), Ok access_token)
    | (w, Raise e) =>
        (mkState w (fs s)
           (trace s ++ [EvRefresh;
                        EvLog ERROR "Ошибка при получении токена Google"]),
         Raise e)
    end.
Proof.
  unfold get_access_token. munfold. simpl.
  destruct (credentials_refresh (world s)) as [w [t|e]]; simpl; [done|].
  by rewrite <- app_assoc.
Qed.

(** A failed token refresh leaves [publish_url_google] through the
    exception: the call sits before the [try]. *)
Lemma publish_url_google_token_failure url action (s : state W) e :
  (credentials_refresh (world s)).2 = Raise e ->
  publish_url_google url action s
  = (mkState (credentials_refresh (world s)).1 (fs s)
       (trace s ++ [EvRefresh;
                    EvLog ERROR "Ошибка при получении токена Google"]),
     Raise e).
Proof.
  intros R. unfold publish_url_google.
  unfold mbind at 1. unfold M_bind. rewrite get_access_token_run.
  destruct (credentials_refresh (world s)) as [w [t|e']]; simpl in *;
    by simplify_eq.
Qed.

(** The secondary submitter against its table: the outcome, once the
    token is there. *)
Lemma publish_url_google_run url action (s : state W) access_token :
  (credentials_refresh (world s)).2 = Ok access_token ->
  (publish_url_google url action s).2
  = Ok (google_table action
          (requests_post GOOGLE_API_BASE (google_headers access_token)
             (google_payload url action)
             (credentials_refresh (world s)).1).2).
Proof.
  intros R. unfold publish_url_google.
  unfold mbind at 1. unfold M_bind. rewrite get_access_token_run.
  destruct (credentials_refresh (world s)) as [w [t|e']]; simpl in *;
    [|congruence].
  injection R as ->.
  unfold google_table, google_body, google_metadata, google_update,
    http_failure, failed, google_headers, google_payload.
  munfold. simpl.
  destruct (requests_post _ _ _ _) as [w' [r|e]]; simpl.
  - destruct (raise_for_status r) as [[]|e] eqn:E; simpl.
    + destruct (resp_json r) as [v|e] eqn:J; simpl.
      * repeat (case_match; simplify_eq/=); try done;
          repeat match goal with
                 | G : py_in _ _ = Raise _ |- _ =>
                     apply py_in_not_HTTPError in G
                 | G : py_getitem _ _ = Raise _ |- _ =>
                     apply py_getitem_not_HTTPError in G
                 end; congruence.
      * destruct (is_HTTPError e); simpl; rewrite ?J; done.
    + rewrite (raise_for_status_HTTPError _ _ E). simpl.
      destruct (resp_json r); done.
  - destruct (is_HTTPError e); done.
Qed.

(** The secondary submitter against the outside: it starts with the
    token refresh and touches no file. *)
Lemma publish_url_google_effects url action (s : state W) :
  let s' := (publish_url_google url action s).1 in
  fs s' = fs s
  /\ exists evs, trace s' = (trace s ++ EvRefresh :: evs)%list.
Proof.
  cbv zeta. unfold publish_url_google. munfold.
  rewrite get_access_token_run.
  destruct (credentials_refresh (world s)) as [w [t|e']]; simpl.
  - repeat (case_match; simplify_eq/=);
      (split; [done|]); rewrite <- ?app_assoc; simpl;
      eexists; reflexivity.
  - split; [done|]. eexists; reflexivity.
Qed.

Lemma py_in_dict items key :
  py_in key (JObj items) = Ok (bool_decide (is_Some (dict_get items key))).
Proof. done. Qed.

Lemma py_in_scalar key v :
  scalar v = true -> py_in key v = Raise (TypeError (msg_not_container v)).
Proof. by destruct v. Qed.

Lemma yandex_body_dict items :
  yandex_body (JObj items)
  = match dict_get items "error" with
    | Some err => (ST_FAIL, Some ("Ошибка API: " +:+ py_str err))
    | None =>
        match dict_get items "task_id" with
        | Some _ => (ST_OK, None)
        | None => (ST_OK_NO_TASK, None)
        end
    end.
Proof.
  unfold yandex_body. rewrite !py_in_dict. simpl.
  destruct (dict_get items "error"); simpl; [done|].
  by destruct (dict_get items "task_id").
Qed.

(** C5.  Whatever the network answers to the POST (any transport
    error, any HTTP status, any body), [send_reindex_yandex] returns a
    pair (status, error text): no exception leaves it. *)
Theorem send_reindex_yandex_never_raises user_id host_id url (s : state W) :
  exists status error,
    (send_reindex_yandex token user_id host_id url s).2 = Ok (status, error).
Proof.
  rewrite send_reindex_yandex_run.
  destruct (yandex_table _) as [status error]. eauto.
Qed.

(** C1, as the code has it.  With [posted] the reply to the POST:
    - a transport failure gives Failure with the exception text;
    - an HTTP error status gives Failure with the serialized error
      body, or the exception text when the body cannot be decoded;
    - an accepted response whose body cannot be decoded, or decodes to
      [null], a boolean or a number, gives Failure with the text of the
      exception that raises;
    - an accepted JSON object with an [error] field gives Failure with
      the text [Ошибка API: ] followed by the field's content, whatever
      the other fields; otherwise one with a [task_id] gives Success;
      otherwise the outcome is Success without confirmation. *)
Theorem send_reindex_yandex_classification user_id host_id url (s : state W) :
  let posted :=
    (requests_post (yandex_api_url user_id host_id) (YANDEX_HEADERS token)
       (JObj [("url", JStr url)]) (world s)).2 in
  let out := (send_reindex_yandex token user_id host_id url s).2 in
  (forall e, posted = Raise e -> out = Ok (ST_FAIL, Some (str_exn e)))
  /\ (forall r e, posted = Ok r -> raise_for_status r = Raise e ->
        out = Ok (ST_FAIL,
                  Some (match resp_json r with
                        | Ok error_details => json_dumps error_details
                        | Raise _ => str_exn e
                        end)))
  /\ (forall r, posted = Ok r -> raise_for_status r = Ok tt ->
        (forall e, resp_json r = Raise e ->
           out = Ok (ST_FAIL, Some (str_exn e)))
        /\ (forall v, resp_json r = Ok v -> scalar v = true ->
              out = Ok (ST_FAIL, Some (msg_not_container v)))
        /\ (forall items, resp_json r = Ok (JObj items) ->
              (forall err, dict_get items "error" = Some err ->
                 out = Ok (ST_FAIL, Some ("Ошибка API: " +:+ py_str err)))
              /\ (dict_get items "error" = None ->
                  is_Some (dict_get items "task_id") ->
                  out = Ok (ST_OK, None))
              /\ (dict_get items "error" = None ->
                  dict_get items "task_id" = None ->
                  out = Ok (ST_OK_NO_TASK, None)))).
Proof.
  cbv zeta. rewrite send_reindex_yandex_run.
  destruct (requests_post _ _ _ _) as [w posted]; simpl.
  split; [|split].
  - by intros e ->.
  - intros r e -> E. simpl. rewrite E. unfold http_failure, failed.
    by destruct (resp_json r).
  - intros r -> E. simpl. rewrite E. split; [|split].
    + by intros e ->.
    + intros v -> Hv. unfold yandex_body. by rewrite py_in_scalar.
    + intros items ->. rewrite yandex_body_dict. split; [|split].
      * by intros err ->.
      * by intros -> [x ->].
      * by intros -> ->.
Qed.

Lemma google_update_dict action items :
  google_update action (JObj items)
  = match dict_get items "type" with
    | None => (ST_OK, None)
    | Some type =>
        if py_eq_str type action then (ST_OK, None)
        else (ST_FAIL, Some ("Ожидался тип " +:+ action +:+ ", получен "
                             +:+ py_str type))
    end.
Proof.
  unfold google_update. rewrite py_in_dict. simpl.
  by destruct (dict_get items "type").
Qed.

Lemma google_metadata_dict action items :
  google_metadata action (JObj items)
  = match dict_get items "latestUpdate" with
    | None => (ST_OK, None)
    | Some latest => google_update action latest
    end.
Proof.
  unfold google_metadata. rewrite py_in_dict. simpl.
  by destruct (dict_get items "latestUpdate").
Qed.

Lemma google_body_dict action items :
  google_body action (JObj items)
  = match dict_get items "urlNotificationMetadata" with
    | None => (ST_FAIL, Some "Неожиданный формат ответа от Google API")
    | Some metadata => google_metadata action metadata
    end.
Proof.
  unfold google_body. rewrite py_in_dict. simpl.
  by destruct (dict_get items "urlNotificationMetadata").
Qed.

(** C2, as the code has it.  Once the access token is acquired, with
    [posted] the reply to the POST:
    - a transport failure gives Failure with the exception text, an
      HTTP error status Failure with the serialized error body or else
      the exception text;
    - an accepted response whose body cannot be decoded, or where the
      body, the envelope or its [latestUpdate] is [null], a boolean or
      a number, gives Failure with the text of the exception that
      raises;
    - an accepted JSON object without [urlNotificationMetadata] gives
      Failure with the fixed text on the unexpected format;
    - with an envelope object whose [latestUpdate] object has a [type]
      different from the action, Failure with a text holding the
      expected and the received type; with a [type] equal to the
      action, without [type] or without [latestUpdate], Success. *)
Theorem publish_url_google_classification url action (s : state W)
    access_token :
  (credentials_refresh (world s)).2 = Ok access_token ->
  let posted :=
    (requests_post GOOGLE_API_BASE (google_headers access_token)
       (google_payload url action) (credentials_refresh (world s)).1).2 in
  let out := (publish_url_google url action s).2 in
  (forall e, posted = Raise e -> out = Ok (ST_FAIL, Some (str_exn e)))
  /\ (forall r e, posted = Ok r -> raise_for_status r = Raise e ->
        out = Ok (ST_FAIL,
                  Some (match resp_json r with
                        | Ok error_details => json_dumps error_details
                        | Raise _ => str_exn e
                        end)))
  /\ (forall r, posted = Ok r -> raise_for_status r = Ok tt ->
        (forall e, resp_json r = Raise e ->
           out = Ok (ST_FAIL, Some (str_exn e)))
        /\ (forall v, resp_json r = Ok v -> scalar v = true ->
              out = Ok (ST_FAIL, Some (msg_not_container v)))
        /\ (forall items, resp_json r = Ok (JObj items) ->
              (dict_get items "urlNotificationMetadata" = None ->
               out = Ok (ST_FAIL,
                         Some "Неожиданный формат ответа от Google API"))
              /\ (forall v,
                    dict_get items "urlNotificationMetadata" = Some v ->
                    scalar v = true ->
                    out = Ok (ST_FAIL, Some (msg_not_container v)))
              /\ (forall metadata,
                    dict_get items "urlNotificationMetadata"
                    = Some (JObj metadata) ->
                    (dict_get metadata "latestUpdate" = None ->
                     out = Ok (ST_OK, None))
                    /\ (forall v,
                          dict_get metadata "latestUpdate" = Some v ->
                          scalar v = true ->
                          out = Ok (ST_FAIL, Some (msg_not_container v)))
                    /\ (forall latest,
                          dict_get metadata "latestUpdate"
                          = Some (JObj latest) ->
                          (dict_get latest "type" = None ->
                           out = Ok (ST_OK, None))
                          /\ (forall type,
                                dict_get latest "type" = Some type ->
                                (py_eq_str type action = true ->
                                 out = Ok (ST_OK, None))
                                /\ (py_eq_str type action = false ->
                                    out = Ok (ST_FAIL,
                                              Some ("Ожидался тип "
                                                    +:+ action
                                                    +:+ ", получен "
                                                    +:+ py_str type)))))))).
Proof.
  intros R. cbv zeta. rewrite (publish_url_google_run _ _ _ _ R).
  destruct (requests_post _ _ _ _) as [w posted]; simpl.
  split; [|split].
  - by intros e ->.
  - intros r e -> E. simpl. rewrite E. unfold http_failure, failed.
    by destruct (resp_json r).
  - intros r -> E. simpl. rewrite E. split; [|split].
    + by intros e ->.
    + intros v -> Hv. unfold google_body. by rewrite py_in_scalar.
    + intros items ->. rewrite google_body_dict. split; [|split].
      * by intros ->.
      * intros v -> Hv. unfold google_metadata. by rewrite py_in_scalar.
      * intros metadata ->. rewrite google_metadata_dict.
        split; [|split].
        -- by intros ->.
        -- intros v -> Hv. unfold google_update. by rewrite py_in_scalar.
        -- intros latest ->. rewrite google_update_dict. split.
           ++ by intros ->.
           ++ intros type ->. split; by intros ->.
Qed.

Lemma shape_success P : outcome_shape P (ST_OK, None).
Proof. split; [split; [by left|done]|done]. Qed.

Lemma shape_success_no_task P : outcome_shape P (ST_OK_NO_TASK, None).
Proof. split; [split; [by right|done]|done]. Qed.

Lemma shape_failure (P : Prop) text :
  (P -> text <> "") -> outcome_shape P (ST_FAIL, Some text).
Proof.
  intros HP. split; [split; [done|by intros [?|?]]|].
  intros _. by exists text.
Qed.

Lemma py_in_text key v e :
  runtime_texts_nonempty -> py_in key v = Raise e -> str_exn e <> "".
Proof. intros (_ & Hc & _). destruct v; intros [= <-]; apply Hc. Qed.

Lemma py_getitem_text v key e :
  runtime_texts_nonempty ->
  py_getitem v key = Raise e -> str_exn e <> "".
Proof.
  intros (_ & _ & Hs). destruct v; simpl; repeat case_match;
    intros [= <-]; simpl; solve [apply Hs | done].
Qed.

Lemma http_failure_shape r e :
  raise_for_status r = Raise e ->
  outcome_shape runtime_texts_nonempty (http_failure r e).
Proof.
  intros E. unfold http_failure, failed.
  destruct (resp_json r); apply shape_failure.
  - by intros (Hd & _).
  - intros _. by eapply raise_for_status_text.
Qed.

Lemma yandex_table_shape posted :
  outcome_shape (runtime_texts_nonempty /\ reply_texts_nonempty posted)
    (yandex_table posted).
Proof.
  unfold yandex_table, yandex_body, failed, reply_texts_nonempty.
  destruct posted as [r|e]; [|apply shape_failure; tauto].
  destruct (raise_for_status r) as [[]|e] eqn:E.
  - destruct (resp_json r) as [v|e]; [|apply shape_failure; tauto].
    destruct (py_in "error" v) as [[]|e] eqn:I.
    + destruct (py_getitem v "error") as [x|e] eqn:G;
        apply shape_failure; intros [Hr _].
      * by simpl.
      * by (eapply py_getitem_text; [exact Hr|eassumption]).
    + destruct (py_in "task_id" v) as [[]|e] eqn:I2;
        [apply shape_success|apply shape_success_no_task|].
      apply shape_failure; intros [Hr _]. by (eapply py_in_text; [exact Hr|eassumption]).
    + apply shape_failure; intros [Hr _]. by (eapply py_in_text; [exact Hr|eassumption]).
  - destruct (http_failure_shape _ _ E) as [Hn Hf].
    split; [done|]. intros Hs. destruct (Hf Hs) as (text & -> & Ht).
    exists text. split; [done|]. intros [Hr _]. auto.
Qed.

Lemma google_table_shape action posted :
  outcome_shape (runtime_texts_nonempty /\ reply_texts_nonempty posted)
    (google_table action posted).
Proof.
  unfold google_table, google_body, google_metadata, google_update, failed,
    reply_texts_nonempty.
  destruct posted as [r|e]; [|apply shape_failure; tauto].
  destruct (raise_for_status r) as [[]|e] eqn:E.
  - destruct (resp_json r) as [v|e]; [|apply shape_failure; tauto].
    repeat case_match;
      first [ apply shape_success
            | apply shape_failure; intros [Hr _];
              first [ by (eapply py_in_text; [exact Hr|eassumption])
                    | by (eapply py_getitem_text; [exact Hr|eassumption])
                    | by simpl ] ].
  - destruct (http_failure_shape _ _ E) as [Hn Hf].
    split; [done|]. intros Hs. destruct (Hf Hs) as (text & -> & Ht).
    exists text. split; [done|]. intros [Hr _]. auto.
Qed.

(** C10, as the code has it.  Every outcome either submitter returns
    has no error text exactly when its status is a success variant,
    and a Failure carries a text; the text is non-empty whenever the
    texts it can be taken from are: [json.dumps] of the error body,
    the runtime's [TypeError] texts, and [str(e)] of the exception the
    reply carries.  (The texts the submitters compose themselves, and
    that of [raise_for_status], are never empty.) *)
Theorem outcome_error_detail user_id host_id url action (s : state W) :
  (forall status error,
     (send_reindex_yandex token user_id host_id url s).2
     = Ok (status, error) ->
     (error = None <-> status = ST_OK \/ status = ST_OK_NO_TASK)
     /\ (status = ST_FAIL ->
         exists text,
           error = Some text
           /\ (runtime_texts_nonempty ->
               reply_texts_nonempty
                 (requests_post (yandex_api_url user_id host_id)
                    (YANDEX_HEADERS token) (JObj [("url", JStr url)])
                    (world s)).2 ->
               text <> "")))
  /\ (forall status error,
        (publish_url_google url action s).2 = Ok (status, error) ->
        (error = None <-> status = ST_OK \/ status = ST_OK_NO_TASK)
        /\ (status = ST_FAIL ->
            exists text,
              error = Some text
              /\ (runtime_texts_nonempty ->
                  (forall access_token,
                     (credentials_refresh (world s)).2 = Ok access_token ->
                     reply_texts_nonempty
                       (requests_post GOOGLE_API_BASE
                          (google_headers access_token)
                          (google_payload url action)
                          (credentials_refresh (world s)).1).2) ->
                  text <> ""))).
Proof.
  split; intros status error.
  - rewrite send_reindex_yandex_run. intros [= Ho].
    pose proof (yandex_table_shape
                  (requests_post (yandex_api_url user_id host_id)
                     (YANDEX_HEADERS token) (JObj [("url", JStr url)])
                     (world s)).2) as [Hn Hf].
    rewrite Ho in Hn, Hf. simpl in *. split; [done|].
    intros Hs. destruct (Hf Hs) as (text & -> & Ht).
    exists text. split; [done|]. auto.
  - destruct (credentials_refresh (world s)) as [w [t|e]] eqn:R.
    + rewrite (publish_url_google_run _ _ _ t) by by rewrite R.
      rewrite R. simpl. intros [= Ho].
      pose proof (google_table_shape action
                    (requests_post GOOGLE_API_BASE (google_headers t)
                       (google_payload url action) w).2) as [Hn Hf].
      rewrite Ho in Hn, Hf. simpl in *. split; [done|].
      intros Hs. destruct (Hf Hs) as (text & -> & Ht).
      exists text. split; [done|]. intros Hr Hp. apply Ht. split; [done|].
      by apply Hp.
    + rewrite (publish_url_google_token_failure _ _ _ e) by by rewrite R.
      done.
Qed.

End Submitters.

Section Batch.
Context `{PyRuntime} {W : Type} `{Network W} `{Storage W}.
Variables token site_url : string.

Lemma build_yandex_host_id_run (url : string) (s : state W) :
  build_yandex_host_id url s
  = match urlparse url with
    | Ok (scheme, netloc) =>
        if PyStr.falsy scheme || PyStr.falsy netloc then
          (mkState (world s) (fs s)
             (trace s ++ [EvLog ERROR "Ошибка при формировании host_id"]),
           Raise (ValueError ("Некорректный URL сайта: " +:+ url)))
        else
          (mkState (world s) (fs s)
             (trace s ++ [EvLog INFO "Сформирован host_id"]),
           Ok (scheme +:+ ":" +:+ netloc +:+ ":"
               +:+ (if String.eqb scheme "https" then "443" else "80")))
    | Raise e =>
        (mkState (world s) (fs s)
           (trace s ++ [EvLog ERROR "Ошибка при формировании host_id"]),
         Raise e)
    end.
Proof.
  unfold build_yandex_host_id. munfold.
  destruct (urlparse url) as [[scheme netloc]|e]; simpl; [|done].
  by destruct (PyStr.falsy scheme || PyStr.falsy netloc).
Qed.

Lemma get_yandex_user_id_effects (s : state W) :
  let s' := (get_yandex_user_id token s).1 in
  fs s' = fs s
  /\ exists logs,
       Forall is_log logs
       /\ trace s' = (trace s ++ EvGet (YANDEX_API_BASE +:+ "/user")
                                 :: logs)%list.
Proof.
  unfold get_yandex_user_id. munfold. simpl.
  repeat (case_match; simplify_eq/=);
    (split; [done|]); rewrite <- ?app_assoc; simpl;
    (eexists; split; [|reflexivity]); repeat constructor.
Qed.

(** Identity resolution: host id first, then the GET for the user id;
    no file is touched. *)
Lemma resolve_identity_effects (s : state W) :
  let s' := (resolve_identity token site_url s).1 in
  fs s' = fs s
  /\ exists ids,
       trace s' = (trace s ++ ids)%list
       /\ Forall is_identity_event ids
       /\ ((exists host_id, (build_yandex_host_id site_url s).2 = Ok host_id)
           -> In (EvGet (YANDEX_API_BASE +:+ "/user")) ids).
Proof.
  cbv zeta. unfold resolve_identity. munfold.
  destruct (build_yandex_host_id site_url s) as [s1 [host_id|e]] eqn:B.
  - assert (fs s1 = fs s
            /\ trace s1
               = (trace s ++ [EvLog INFO "Сформирован host_id"])%list)
      as [F1 T1].
    { rewrite build_yandex_host_id_run in B.
      repeat (case_match; simplify_eq/=); done. }
    destruct (get_yandex_user_id_effects s1) as (F2 & logs & L & T2).
    destruct (get_yandex_user_id token s1) as [s2 [user_id|e]]; simpl in *.
    + split; [congruence|].
      exists ([EvLog INFO "Сформирован host_id";
               EvGet (YANDEX_API_BASE +:+ "/user")] ++ logs
              ++ [EvLog INFO "Инициализация завершена"])%list.
      rewrite T2, T1, <- !app_assoc. simpl. split; [done|]. split.
      * repeat constructor. apply Forall_app. split.
        -- eapply Forall_impl; [exact L|]. by intros [].
        -- repeat constructor.
      * intros _. right. by left.
    + split; [congruence|].
      exists ([EvLog INFO "Сформирован host_id";
               EvGet (YANDEX_API_BASE +:+ "/user")] ++ logs)%list.
      rewrite T2, T1, <- !app_assoc. simpl. split; [done|]. split.
      * repeat constructor. eapply Forall_impl; [exact L|]. by intros [].
      * intros _. right. by left.
  - rewrite build_yandex_host_id_run in B.
    repeat (case_match; simplify_eq/=);
      (split; [done|]); (eexists; split; [reflexivity|]);
      (split; [repeat constructor|]); by intros [? [=]].
Qed.

Lemma identity_event_quiet ev : is_identity_event ev -> is_quiet ev.
Proof. by destruct ev. Qed.

(** C7.  When the table in the input file has no [URL] column among
    its header names as [process_urls] cleans them (white space
    stripped, byte-order marks removed), or no header at all, the run
    ends without raising, the file system is the one it started from
    (no output file is created, an existing one keeps its content), and
    nothing is submitted or written. *)
Theorem missing_URL_column_aborts input_file output_file records
    (s : state W) :
  fs s !! input_file = Some records ->
  (forall fieldnames,
     reader_fieldnames records = Some fieldnames -> "URL" ∉ fieldnames) ->
  let run := process_urls token site_url input_file output_file s in
  run.2 = Ok tt
  /\ fs run.1 = fs s
  /\ fs run.1 !! output_file = fs s !! output_file
  /\ exists evs, trace run.1 = (trace s ++ evs)%list /\ Forall is_quiet evs.
Proof.
  intros Hin Hno. cbv zeta.
  destruct (resolve_identity_effects s) as (F & ids & T & I & _).
  assert (Forall is_quiet ids) as Q
    by (eapply Forall_impl; [exact I|apply identity_event_quiet]).
  unfold process_urls, path_exists, open_read. munfold.
  destruct (resolve_identity token site_url s) as [s1 [[user_id host_id]|e]];
    simpl in *.
  - rewrite F, Hin. simpl. rewrite Hin. simpl.
    destruct (reader_fieldnames records) as [fieldnames|] eqn:R; simpl.
    + rewrite bool_decide_false by by apply Hno. simpl.
      rewrite T, <- !app_assoc. repeat split; try done.
      eexists. split; [reflexivity|].
      apply Forall_app. split; [done|]. repeat constructor.
    + rewrite T, <- !app_assoc. repeat split; try done.
      eexists. split; [reflexivity|].
      apply Forall_app. split; [done|]. repeat constructor.
  - rewrite F, T, <- !app_assoc. repeat split; try done.
    eexists. split; [reflexivity|].
    apply Forall_app. split; [done|]. repeat constructor.
Qed.

(** C8, as the code has it.  Identity resolution runs first, the GET
    for the user id included whenever the host id could be built, and
    the existence of the input file is checked after it.  When the
    input file is missing the run ends without raising and with the
    file system unchanged: after a successful identity resolution it
    checks the file, logs the error and stops; after a failed one it
    logs that error and stops without looking at the file. *)
Theorem missing_input_file_aborts input_file output_file (s : state W) :
  fs s !! input_file = None ->
  let init := resolve_identity token site_url s in
  let run := process_urls token site_url input_file output_file s in
  run.2 = Ok tt
  /\ fs run.1 = fs s
  /\ exists ids,
       trace init.1 = (trace s ++ ids)%list
       /\ Forall is_identity_event ids
       /\ ((exists host_id,
              (build_yandex_host_id site_url s).2 = Ok host_id)
           -> In (EvGet (YANDEX_API_BASE +:+ "/user")) ids)
       /\ trace run.1
          = (trace s ++ ids
             ++ match init.2 with
                | Ok _ => [EvExists input_file;
                           EvLog ERROR "Входной файл не найден"]
                | Raise _ => [EvLog ERROR "Ошибка при инициализации"]
                end)%list.
Proof.
  intros Hin. cbv zeta.
  destruct (resolve_identity_effects s) as (F & ids & T & I & G).
  unfold process_urls, path_exists. munfold.
  destruct (resolve_identity token site_url s) as [s1 [[user_id host_id]|e]];
    simpl in *.
  - rewrite F, Hin. simpl.
    repeat split; try done. exists ids.
    rewrite T, <- !app_assoc. done.
  - repeat split; try done. exists ids.
    rewrite T, <- !app_assoc. done.
Qed.

(** The loop body on a row whose URL is not empty after stripping, as
    far as it goes: [loop_body] calls the primary submitter, which
    returns an outcome, and then, from the state the primary left and
    whatever that outcome is, the secondary submitter: in the trace the
    POST to the primary API is followed by log records only and then by
    the token refresh the secondary submitter starts with.  The row
    with the URL and both outcomes is appended only when the secondary
    submitter returns; when it raises, no row is appended. *)
Theorem loop_body_submits_both user_id host_id fieldnames st cells url
    (s : state W) :
  cell_strip (row_url fieldnames cells) = Ok url ->
  url <> "" ->
  let s0 := (log INFO "Обработка URL" s).1 in
  let primary := send_reindex_yandex token user_id host_id url s0 in
  let secondary := publish_url_google url "URL_UPDATED" primary.1 in
  let run := loop_body token user_id host_id fieldnames st cells s in
  (exists logs evs,
     Forall is_log logs
     /\ trace run.1
        = (trace s
           ++ [EvLog INFO "Обработка URL";
               EvPost (yandex_api_url user_id host_id)
                 (JObj [("url", JStr url)])]
           ++ logs ++ EvRefresh :: evs)%list)
  /\ exists status_yandex error_yandex,
       primary.2 = Ok (status_yandex, error_yandex)
       /\ forall status_google error_google,
            secondary.2 = Ok (status_google, error_google) ->
            run.2
            = Ok {| total_urls := S (total_urls st);
                    processed_urls := S (processed_urls st);
                    results :=
                      (results st
                       ++ [ {| URL := url;
                               Yandex_Status := status_yandex;
                               Yandex_Error := or_empty error_yandex;
                               Google_Status := status_google;
                               Google_Error := or_empty error_google |} ])%list
                 |}.
Proof.
  intros Hurl Hne. cbv zeta.
  assert (PyStr.falsy url = false) as Hf
    by (destruct (PyStr.falsy url) eqn:E; [by apply falsy_spec in E|done]).
  unfold loop_body. munfold. rewrite Hurl. simpl. rewrite Hf. simpl.
  set (s0 := mkState (world s) (fs s)
               (trace s ++ [EvLog INFO "Обработка URL"])%list).
  pose proof (send_reindex_yandex_run token user_id host_id url s0) as P.
  destruct (yandex_table _) as [ps pe].
  destruct (send_reindex_yandex_effects token user_id host_id url s0)
    as (_ & logs & L & T1).
  destruct (send_reindex_yandex token user_id host_id url s0)
    as [s1 r1]; simpl in *. subst r1. simpl.
  destruct (publish_url_google_effects url "URL_UPDATED" s1)
    as (_ & evs & T2).
  destruct (publish_url_google url "URL_UPDATED" s1)
    as [s2 [[sg eg]|e]]; simpl in *.
  - split.
    + exists logs, (evs ++ [EvLog INFO "Результат"; EvSleep 1])%list.
      split; [done|]. rewrite T2, T1. subst s0. simpl.
      by rewrite <- !app_assoc.
    + exists ps, pe. split; [done|]. by intros ? ? [= <- <-].
  - split.
    + exists logs, evs. split; [done|]. rewrite T2, T1. subst s0. simpl.
      by rewrite <- !app_assoc.
    + exists ps, pe. split; [done|]. done.
Qed.

(** What one pass of the loop body leaves in the loop variables when
    it completes. *)
Lemma loop_body_completed user_id host_id fieldnames st cells st'
    (s : state W) :
  (loop_body token user_id host_id fieldnames st cells s).2 = Ok st' ->
  exists url,
    cell_strip (row_url fieldnames cells) = Ok url
    /\ total_urls st' = S (total_urls st)
    /\ ((url = "" /\ processed_urls st' = processed_urls st
         /\ results st' = results st)
        \/ (url <> "" /\ processed_urls st' = S (processed_urls st)
            /\ exists row,
                 URL row = url
                 /\ results st' = (results st ++ [row])%list)).
Proof.
  unfold loop_body. munfold.
  destruct (cell_strip (row_url fieldnames cells)) as [url|e]; simpl;
    [|done].
  destruct (PyStr.falsy url) eqn:Hf; simpl.
  - intros [= <-]. exists url. apply falsy_spec in Hf. simpl. tauto.
  - assert (url <> "") by (intros ->; done).
    repeat (case_match; simplify_eq/=); try done.
    intros [= <-]. exists url. simpl. repeat split; try done.
    right. repeat split; try done.
    eexists. split; [|reflexivity]. done.
Qed.

(** The loop, when it runs to its end: one row of [results] for every
    data row whose stripped URL is not empty, in the order of the
    table, none for the others; [total_urls] counts the data rows and
    [processed_urls] the rows of [results]. *)
Lemma for_rows_completed user_id host_id fieldnames records st st'
    (s : state W) :
  (for_rows token user_id host_id fieldnames records st s).2 = Ok st' ->
  exists urls new_rows,
    Forall2 (fun cells url => cell_strip (row_url fieldnames cells) = Ok url)
      (data_rows records) urls
    /\ results st' = (results st ++ new_rows)%list
    /\ URL <$> new_rows
       = List.filter (fun u => negb (PyStr.falsy u)) urls
    /\ total_urls st' = (total_urls st + length urls)%nat
    /\ processed_urls st' = (processed_urls st + length new_rows)%nat.
Proof.
  revert st s. induction records as [|cells records IH]; intros st s.
  - simpl. intros [= <-]. exists [], []. simpl.
    rewrite app_nil_r. repeat split; try done; try lia.
  - destruct cells as [|c cells]; [by apply IH|].
    cbn [for_rows data_rows List.filter]. simpl negb. cbn iota.
    munfold.
    destruct (loop_body token user_id host_id fieldnames st (c :: cells) s)
      as [s1 [st1|e]] eqn:B; [|done].
    pose proof (f_equal snd B) as B2. simpl in B2.
    apply loop_body_completed in B2 as (url & Hu & Ht & Hcase).
    intros R. apply IH in R as (urls & rows & F & Hr & Hf & Hn & Hp).
    destruct Hcase as [(-> & Hp1 & Hr1)|(Hne & Hp1 & row & Hrow & Hr1)].
    + exists ("" :: urls), rows. simpl. repeat split.
      * by constructor.
      * by rewrite Hr, Hr1.
      * done.
      * rewrite Hn, Ht. lia.
      * rewrite Hp, Hp1. lia.
    + exists (url :: urls), (row :: rows). simpl.
      assert (PyStr.falsy url = false) as ->
        by (destruct (PyStr.falsy url) eqn:E;
            [by apply falsy_spec in E|done]).
      simpl. repeat split.
      * by constructor.
      * rewrite Hr, Hr1, <- app_assoc. done.
      * rewrite Hrow. f_equal. exact Hf.
      * rewrite Hn, Ht. lia.
      * rewrite Hp, Hp1. simpl. lia.
Qed.

(** The rows skipped and the rows processed add up to the data rows. *)
Lemma skipped_plus_processed (urls : list string) :
  (length (List.filter PyStr.falsy urls)
   + length (List.filter (fun u => negb (PyStr.falsy u)) urls))%nat
  = length urls.
Proof.
  induction urls as [|u urls IH]; simpl; [done|].
  destruct (PyStr.falsy u); simpl; lia.
Qed.

(** The loop does run to its end when every data row has a cell in the
    [URL] column and no token refresh fails. *)
Lemma for_rows_completes user_id host_id fieldnames records st
    (s : state W) :
  (forall w, exists access_token,
     (credentials_refresh w).2 = Ok access_token) ->
  Forall (fun cells => is_Some (row_url fieldnames cells))
    (data_rows records) ->
  exists st', (for_rows token user_id host_id fieldnames records st s).2
              = Ok st'.
Proof.
  intros Htok. revert st s.
  induction records as [|cells records IH]; intros st s Hrows.
  - by eexists.
  - destruct cells as [|c cells]; [by apply IH|].
    cbn [for_rows data_rows List.filter] in *. simpl negb in Hrows.
    cbn iota in Hrows. apply Forall_cons in Hrows as [[u Hu] Hrows].
    unfold mbind, M_bind.
    assert (exists st1,
              (loop_body token user_id host_id fieldnames st (c :: cells) s).2
              = Ok st1) as [st1 B].
    { unfold loop_body. munfold. rewrite Hu. simpl.
      destruct (PyStr.falsy (PyStr.strip u)); simpl; [by eexists|].
      set (s0 := mkState _ _ _).
      pose proof (send_reindex_yandex_run token user_id host_id
                    (PyStr.strip u) s0) as P.
      destruct (yandex_table _) as [ps pe].
      destruct (send_reindex_yandex token user_id host_id
                  (PyStr.strip u) s0) as [s1 r1]; simpl in *. subst r1.
      simpl.
      destruct (Htok (world s1)) as [t Ht].
      pose proof (publish_url_google_run (PyStr.strip u) "URL_UPDATED"
                    s1 t Ht) as G.
      destruct (publish_url_google (PyStr.strip u) "URL_UPDATED" s1)
        as [s2 r2]; simpl in *. subst r2.
      destruct (google_table _ _). by eexists. }
    destruct (loop_body token user_id host_id fieldnames st (c :: cells) s)
      as [s1 r1]; simpl in *. subst r1. by apply IH.
Qed.

End Batch.

(** ** The host identifier *)

(** C6.  For a site URL that the parser splits into a scheme and a
    network location, both non-empty, [build_yandex_host_id] returns
    the scheme, the location and the port joined by colons, the port
    being 443 for the scheme https and 80 for any other; when either
    part is empty it raises instead of returning, as it does when the
    parser raises.  With CPython's [urlsplit], the site URL
    [http://example.org] gives [http:example.org:80]. *)
Theorem build_yandex_host_id_spec `{PyRuntime} {W : Type} (site_url : string)
    (s : state W) :
  (forall scheme netloc,
     urlparse site_url = Ok (scheme, netloc) ->
     scheme <> "" -> netloc <> "" ->
     exists port,
       (build_yandex_host_id site_url s).2
       = Ok (scheme +:+ ":" +:+ netloc +:+ ":" +:+ port)
       /\ (scheme = "https" -> port = "443")
       /\ (scheme <> "https" -> port = "80"))
  /\ (forall scheme netloc,
        urlparse site_url = Ok (scheme, netloc) ->
        scheme = "" \/ netloc = "" ->
        exists e, (build_yandex_host_id site_url s).2 = Raise e)
  /\ (forall e,
        urlparse site_url = Raise e ->
        (build_yandex_host_id site_url s).2 = Raise e)
  /\ (build_yandex_host_id (H:=Sample.runtime) "http://example.org" s).2
     = Ok "http:example.org:80".
Proof.
  split; [|split; [|split]].
  - intros scheme netloc P Hs Hn. rewrite build_yandex_host_id_run, P.
    assert (PyStr.falsy scheme || PyStr.falsy netloc = false) as ->.
    { apply orb_false_iff. split.
      - destruct (PyStr.falsy scheme) eqn:E; [by apply falsy_spec in E|done].
      - destruct (PyStr.falsy netloc) eqn:E; [by apply falsy_spec in E|done]. }
    eexists. split; [reflexivity|]. split.
    + by intros ->.
    + intros Hne. apply String.eqb_neq in Hne. by rewrite Hne.
  - intros scheme netloc P Hor. rewrite build_yandex_host_id_run, P.
    assert (PyStr.falsy scheme || PyStr.falsy netloc = true) as ->.
    { apply orb_true_iff. destruct Hor as [->| ->]; [by left|by right]. }
    by eexists.
  - intros e P. by rewrite build_yandex_host_id_run, P.
  - by rewrite build_yandex_host_id_run.
Qed.

(** ** The sample runtime produces no empty text *)

Lemma pretty_N_go_nonempty (x : N) (s : string) :
  s <> "" -> pretty_N_go x s <> "".
Proof.
  revert s. induction (N.lt_wf_0 x) as [x _ IH]; intros s Hs.
  destruct (decide (x = 0%N)) as [->|Hx].
  - by rewrite pretty_N_go_0.
  - rewrite pretty_N_go_step by lia. apply IH; [|done].
    apply N.div_lt; lia.
Qed.

Lemma pretty_Z_nonempty (z : Z) : pretty z <> "".
Proof.
  assert (forall p : positive, pretty (Npos p) <> "") as Hp.
  { intros p. unfold pretty, pretty_N. rewrite decide_False by done.
    rewrite pretty_N_go_step by lia. by apply pretty_N_go_nonempty. }
  destruct z as [|p|p]; unfold pretty, pretty_Z; [done|apply Hp|].
  simpl. discriminate.
Qed.

Lemma sample_runtime_texts :
  runtime_texts_nonempty (H:=Sample.runtime).
Proof.
  split; [|split]; intros v.
  - destruct v as [|[]| | | | |]; simpl; try discriminate.
    apply pretty_Z_nonempty.
  - by destruct v.
  - by destruct v.
Qed.

(** ** The model on concrete runs *)

Import Sample.

(** C1 at an accepted reply with an [error] field and a task
    identifier. *)
Lemma send_reindex_yandex_classification_witness :
  send (posting (accepted (JObj [("error", JStr "quota");
                                 ("task_id", JStr "c7fe80c0")])))
  = Ok (ST_FAIL, Some "Ошибка API: quota").
Proof.
  pose proof (send_reindex_yandex_classification "TOKEN" (JInt 42)
                "https:example.com:443" "https://a.com/"
                (start (posting (accepted
                   (JObj [("error", JStr "quota");
                          ("task_id", JStr "c7fe80c0")]))) ∅)) as T.
  cbv zeta in T. destruct T as (_ & _ & A).
  destruct (A _ eq_refl eq_refl) as (_ & _ & B).
  destruct (B _ eq_refl) as (C & _).
  exact (C _ eq_refl).
Defined.

(** C1 as the specification states it fails twice.  For the accepted
    body with [error] equal to [quota] the error detail is not the
    field's content but that content behind a fixed label.  For the
    accepted body [null] there is no transport or HTTP failure, no
    [error] field and no task identifier, yet the outcome is Failure
    and not Success without confirmation. *)
Lemma send_reindex_yandex_not_as_specified :
  (send (posting (accepted (JObj [("error", JStr "quota");
                                  ("task_id", JStr "c7fe80c0")])))
   = Ok (ST_FAIL, Some "Ошибка API: quota")
   /\ "Ошибка API: quota" <> "quota")
  /\ (send (posting (accepted JNull))
      = Ok (ST_FAIL, Some "argument of type 'NoneType' is not iterable")
      /\ send (posting (accepted JNull)) <> Ok (ST_OK_NO_TASK, None)).
Proof. repeat split; (reflexivity || discriminate). Qed.

(** C2 at the reply that confirms the update, and at one that reports
    another type. *)
Lemma publish_url_google_classification_witness :
  publish succeeding = Ok (ST_OK, None)
  /\ publish (posting (accepted
        (JObj [("urlNotificationMetadata",
                JObj [("latestUpdate",
                       JObj [("type", JStr "URL_REMOVED")])])])))
     = Ok (ST_FAIL, Some "Ожидался тип URL_UPDATED, получен URL_REMOVED").
Proof.
  split.
  - pose proof (publish_url_google_classification "https://a.com/"
                  "URL_UPDATED" (start succeeding ∅) "ya29.token" eq_refl)
      as T.
    cbv zeta in T. destruct T as (_ & _ & A).
    destruct (A _ eq_refl eq_refl) as (_ & _ & B).
    destruct (B _ eq_refl) as (_ & _ & C).
    destruct (C _ eq_refl) as (_ & _ & D).
    destruct (D _ eq_refl) as (_ & E).
    destruct (E _ eq_refl) as (F & _).
    exact (F eq_refl).
  - pose proof (publish_url_google_classification "https://a.com/"
                  "URL_UPDATED"
                  (start (posting (accepted
                     (JObj [("urlNotificationMetadata",
                             JObj [("latestUpdate",
                                    JObj [("type", JStr "URL_REMOVED")])])])))
                     ∅) "ya29.token" eq_refl) as T.
    cbv zeta in T. destruct T as (_ & _ & A).
    destruct (A _ eq_refl eq_refl) as (_ & _ & B).
    destruct (B _ eq_refl) as (_ & _ & C).
    destruct (C _ eq_refl) as (_ & _ & D).
    destruct (D _ eq_refl) as (_ & E).
    destruct (E _ eq_refl) as (_ & F).
    exact (F eq_refl).
Defined.

(** C2 as the specification states it fails.  An accepted body whose
    envelope is [null] gives Failure with the text of a [TypeError]:
    neither the fixed text for a missing envelope nor the Success of
    an envelope without update information.  An accepted body that is
    not JSON has no envelope, and the error detail is the decoder's
    text instead of the fixed one. *)
Lemma publish_url_google_not_as_specified :
  (publish (posting (accepted (JObj [("urlNotificationMetadata", JNull)])))
   = Ok (ST_FAIL, Some "argument of type 'NoneType' is not iterable")
   /\ publish (posting (accepted
                          (JObj [("urlNotificationMetadata", JNull)])))
      <> Ok (ST_FAIL, Some "Неожиданный формат ответа от Google API")
   /\ publish (posting (accepted
                          (JObj [("urlNotificationMetadata", JNull)])))
      <> Ok (ST_OK, None))
  /\ (publish (posting (Ok (http 200 "OK"
                 (Raise (RequestException "Expecting value: line 1")))))
      = Ok (ST_FAIL, Some "Expecting value: line 1")
      /\ "Expecting value: line 1"
         <> "Неожиданный формат ответа от Google API").
Proof. repeat split; (reflexivity || discriminate). Qed.

(** C4 fails on the code: two URLs and a credential the token endpoint
    refuses.  The first secondary submission raises instead of
    returning Failure; the batch stops there, the second URL is never
    submitted and no output file is written. *)
Theorem token_failure_aborts_batch :
  let files : gmap string csv :=
    {[ "urls.csv" := [["URL"]; ["https://a.com/"]; ["https://b.com/"]] ]} in
  publish token_refused = Raise (OtherError "invalid_grant")
  /\ (run token_refused files).2 = Ok tt
  /\ fs (run token_refused files).1 = files
  /\ fs (run token_refused files).1 !! "results.csv" = None
  /\ trace (run token_refused files).1
     = [EvLog INFO "Сформирован host_id";
        EvGet "https://api.webmaster.yandex.net/v4/user";
        EvLog INFO "Получен user-id";
        EvLog INFO "Инициализация завершена";
        EvExists "urls.csv"; EvRead "urls.csv";
        EvLog INFO "Обработка URL";
        EvPost "https://api.webmaster.yandex.net/v4/user/42/hosts/https:example.com:443/recrawl/queue"
          (JObj [("url", JStr "https://a.com/")]);
        EvRefresh;
        EvLog ERROR "Ошибка при получении токена Google";
        EvLog ERROR "Ошибка при обработке файла"].
Proof. repeat split; vm_compute; reflexivity. Qed.

(** C9 fails on the code: one row with a URL, on a network that answers
    every request and whose token endpoint refuses the credential.  The
    primary submitter is called first and returns Success, and the
    secondary submitter is called after it; but it raises while asking
    for its token, the exception leaves the loop body, and no row is
    appended: neither outcome is recorded, and the batch ends without
    an output file. *)
Theorem token_failure_records_no_outcome :
  let st0 := {| total_urls := 0; processed_urls := 0; results := [] |} in
  let pass :=
    loop_body "TOKEN" (JInt 42) "https:example.com:443" ["URL"] st0
      ["https://a.com/"] (start token_refused ∅) in
  let files : gmap string csv :=
    {[ "urls.csv" := [["URL"]; ["https://a.com/"]] ]} in
  cell_strip (row_url ["URL"] ["https://a.com/"]) = Ok "https://a.com/"
  /\ send token_refused = Ok (ST_OK, None)
  /\ pass.2 = Raise (OtherError "invalid_grant")
  /\ trace pass.1
     = [EvLog INFO "Обработка URL";
        EvPost "https://api.webmaster.yandex.net/v4/user/42/hosts/https:example.com:443/recrawl/queue"
          (JObj [("url", JStr "https://a.com/")]);
        EvRefresh;
        EvLog ERROR "Ошибка при получении токена Google"]
  /\ (run token_refused files).2 = Ok tt
  /\ fs (run token_refused files).1 !! "results.csv" = None.
Proof. repeat split; vm_compute; reflexivity. Qed.

(** C3 fails on the code: a table whose second data row is too short to
    have a cell in the [URL] column.  [DictReader] gives that row [None] for the URL,
    stripping it raises, and the batch stops: the row gathered for the
    first URL is never written and the third row is never submitted,
    on a network where every call succeeds. *)
Theorem short_row_aborts_batch :
  let files : gmap string csv :=
    {[ "urls.csv" := [["Name"; "URL"];
                      ["one"; "https://a.com/"];
                      ["two"];
                      ["three"; "https://c.com/"]] ]} in
  row_url ["Name"; "URL"] ["two"] = None
  /\ (run succeeding files).2 = Ok tt
  /\ fs (run succeeding files).1 = files
  /\ fs (run succeeding files).1 !! "results.csv" = None
  /\ trace (run succeeding files).1
     = [EvLog INFO "Сформирован host_id";
        EvGet "https://api.webmaster.yandex.net/v4/user";
        EvLog INFO "Получен user-id";
        EvLog INFO "Инициализация завершена";
        EvExists "urls.csv"; EvRead "urls.csv";
        EvLog INFO "Обработка URL";
        EvPost "https://api.webmaster.yandex.net/v4/user/42/hosts/https:example.com:443/recrawl/queue"
          (JObj [("url", JStr "https://a.com/")]);
        EvRefresh;
        EvPost GOOGLE_API_BASE
          (JObj [("url", JStr "https://a.com/");
                 ("type", JStr "URL_UPDATED")]);
        EvLog INFO "Результат"; EvSleep 1;
        EvLog ERROR "Ошибка при обработке файла"].
Proof. repeat split; vm_compute; reflexivity. Qed.

(** C6 at an https site. *)
Lemma build_yandex_host_id_spec_witness :
  urlparse "https://example.com/news" = Ok ("https", "example.com")
  /\ (build_yandex_host_id "https://example.com/news"
        (start succeeding ∅)).2
     = Ok "https:example.com:443".
Proof.
  split; [reflexivity|].
  destruct (build_yandex_host_id_spec "https://example.com/news"
              (start succeeding ∅)) as (A & _).
  destruct (A "https" "example.com" eq_refl
              ltac:(discriminate) ltac:(discriminate))
    as (port & E & P & _).
  rewrite E, (P eq_refl). reflexivity.
Defined.

(** C7 at a table whose only column is [Link], with an output file
    left by an earlier run. *)
Lemma missing_URL_column_aborts_witness :
  let files : gmap string csv :=
    <[ "results.csv" := [["URL"]; ["https://old.com/"]] ]>
      {[ "urls.csv" := [["Link"]; ["https://a.com/"]] ]} in
  files !! "urls.csv" = Some [["Link"]; ["https://a.com/"]]
  /\ (run succeeding files).2 = Ok tt
  /\ fs (run succeeding files).1 !! "results.csv"
     = Some [["URL"]; ["https://old.com/"]].
Proof.
  cbv zeta. split; [reflexivity|].
  destruct (missing_URL_column_aborts "TOKEN" "https://example.com"
              "urls.csv" "results.csv" [["Link"]; ["https://a.com/"]]
              (start succeeding
                 (<[ "results.csv" := [["URL"]; ["https://old.com/"]] ]>
                    {[ "urls.csv" := [["Link"]; ["https://a.com/"]] ]})))
    as (R & _ & F & _).
  - reflexivity.
  - intros fieldnames [= <-]. vm_compute.
    intros Hin. inversion Hin as [|? ? ? Hin']. inversion Hin'.
  - split; [exact R|]. exact (eq_trans F eq_refl).
Defined.

(** C8 as the specification states it fails: with no input file, on a
    network where every call succeeds, the GET that resolves the user
    id is made before the file is looked for. *)
Lemma identity_resolved_before_file_check :
  (∅ : gmap string csv) !! "urls.csv" = None
  /\ trace (run succeeding ∅).1
     = [EvLog INFO "Сформирован host_id";
        EvGet "https://api.webmaster.yandex.net/v4/user";
        EvLog INFO "Получен user-id";
        EvLog INFO "Инициализация завершена";
        EvExists "urls.csv";
        EvLog ERROR "Входной файл не найден"].
Proof. split; reflexivity. Qed.

(** C8 as the code has it, at the same run. *)
Lemma missing_input_file_aborts_witness :
  (∅ : gmap string csv) !! "urls.csv" = None
  /\ (run succeeding ∅).2 = Ok tt
  /\ fs (run succeeding ∅).1 = ∅.
Proof.
  split; [reflexivity|].
  assert (fs (start succeeding ∅) !! "urls.csv" = None) as Hin
    by reflexivity.
  destruct (missing_input_file_aborts "TOKEN" "https://example.com"
              "urls.csv" "results.csv" (start succeeding ∅) Hin)
    as (R & F & _).
  split; [exact R|exact F].
Defined.

(** The loop body at a URL the primary API answers with status 500 and
    the secondary API accepts: the row records the Failure of the first
    and the Success of the second. *)
Lemma loop_body_submits_both_witness :
  cell_strip (row_url ["URL"] [" https://a.com/ "]) = Ok "https://a.com/"
  /\ (loop_body "TOKEN" (JInt 42) "https:example.com:443" ["URL"]
        {| total_urls := 0; processed_urls := 0; results := [] |}
        [" https://a.com/ "] (start primary_down ∅)).2
     = Ok {| total_urls := 1;
             processed_urls := 1;
             results :=
               [ {| URL := "https://a.com/";
                    Yandex_Status := ST_FAIL;
                    Yandex_Error :=
                      dumps (JObj [("error_code", JStr "INTERNAL")]);
                    Google_Status := ST_OK;
                    Google_Error := "" |} ] |}.
Proof.
  split; [reflexivity|].
  destruct (loop_body_submits_both "TOKEN" (JInt 42)
              "https:example.com:443" ["URL"]
              {| total_urls := 0; processed_urls := 0; results := [] |}
              [" https://a.com/ "] "https://a.com/"
              (start primary_down ∅) eq_refl ltac:(discriminate))
    as (_ & status_yandex & error_yandex & P & R).
  injection P as <- <-.
  exact (R ST_OK None eq_refl).
Defined.

(** C10 as stated fails: when the exception that [requests.post]
    raises has an empty text (as that of [MemoryError()] is), the
    Failure carries the empty string. *)
Lemma failure_with_empty_text :
  send (posting (Raise (OtherError ""))) = Ok (ST_FAIL, Some "").
Proof. reflexivity. Qed.

(** C10 as the code has it, at the primary API answering 500 with a
    JSON body. *)
Lemma outcome_error_detail_witness :
  send primary_down
  = Ok (ST_FAIL, Some (dumps (JObj [("error_code", JStr "INTERNAL")])))
  /\ dumps (JObj [("error_code", JStr "INTERNAL")]) <> "".
Proof.
  split; [reflexivity|].
  destruct (outcome_error_detail "TOKEN" (JInt 42) "https:example.com:443"
              "https://a.com/" "URL_UPDATED" (start primary_down ∅))
    as (A & _).
  destruct (A ST_FAIL
              (Some (dumps (JObj [("error_code", JStr "INTERNAL")])))
              eq_refl) as (_ & B).
  destruct (B eq_refl) as (text & E & T).
  injection E as <-.
  apply T; [exact sample_runtime_texts|exact I].
Defined.


(** ** Further properties of the code *)

Section Identity.
Context `{PyRuntime} {W : Type} `{Network W} `{Storage W}.
Variables token site_url : string.

(** X1.  What [get_yandex_user_id] returns, by the reply to its GET: the
    exception of a failed request, of an HTTP error status or of a body
    that is not JSON is passed on; a JSON object gives the value under
    [user_id], and a [ValueError] when it has no such key; [null], a
    boolean or a number gives the [TypeError] of the membership test. *)
Theorem get_yandex_user_id_result (s : state W) :
  let got :=
    (requests_get (YANDEX_API_BASE +:+ "/user") (YANDEX_HEADERS token)
       (world s)).2 in
  let out := (get_yandex_user_id token s).2 in
  (forall e, got = Raise e -> out = Raise e)
  /\ (forall r e, got = Ok r -> raise_for_status r = Raise e -> out = Raise e)
  /\ (forall r, got = Ok r -> raise_for_status r = Ok tt ->
        (forall e, resp_json r = Raise e -> out = Raise e)
        /\ (forall v, resp_json r = Ok v -> scalar v = true ->
              out = Raise (TypeError (msg_not_container v)))
        /\ (forall items, resp_json r = Ok (JObj items) ->
              (forall user_id, dict_get items "user_id" = Some user_id ->
                 out = Ok user_id)
              /\ (dict_get items "user_id" = None ->
                  out = Raise (ValueError
                                 ("В ответе API отсутствует user_id: "
                                  +:+ py_str (JObj items)))))).
Proof.
  cbv zeta. unfold get_yandex_user_id. munfold. simpl.
  destruct (requests_get _ _ _) as [w got]; simpl.
  split; [|split].
  - intros e ->. by destruct (is_RequestException e).
  - intros r e -> E. simpl. rewrite E. simpl.
    by destruct (is_RequestException e).
  - intros r -> E. simpl. rewrite E. simpl. split; [|split].
    + intros e ->. simpl. by destruct (is_RequestException e).
    + intros v -> Hv. simpl. by rewrite py_in_scalar.
    + intros items ->. simpl. split.
      * intros user_id Hu. rewrite !Hu. simpl. by rewrite ?Hu.
      * intros Hu. by rewrite !Hu.
Qed.

(** X2.  What [get_yandex_user_id] does to the outside: it touches no
    file and makes one GET; after it comes one log record, the success
    record when it returns and the error record when the exception it
    passes on is a [requests] exception, and no record for any other
    exception (a missing [user_id] is not logged here). *)
Theorem get_yandex_user_id_trace (s : state W) :
  let run := get_yandex_user_id token s in
  fs run.1 = fs s
  /\ trace run.1
     = (trace s
        ++ EvGet (YANDEX_API_BASE +:+ "/user")
           :: match run.2 with
              | Ok _ => [EvLog INFO "Получен user-id"]
              | Raise e =>
                  if is_RequestException e
                  then [EvLog ERROR "Ошибка при запросе user-id"]
                  else []
              end)%list.
Proof.
  cbv zeta. unfold get_yandex_user_id. munfold. simpl.
  repeat (case_match; simplify_eq/=);
    rewrite <- ?app_assoc; simpl; split; congruence.
Qed.

End Identity.

Section Submissions.
Context `{PyRuntime} {W : Type} `{Network W} `{Storage W}.
Variable token : string.

Lemma error_log_is_log ev : is_error_log ev -> is_log ev.
Proof. by destruct ev. Qed.

(** The effects of the primary submitter, in full. *)
Lemma send_reindex_yandex_events user_id host_id url (s : state W) :
  let run := send_reindex_yandex token user_id host_id url s in
  exists status error logs,
    run.2 = Ok (status, error)
    /\ fs run.1 = fs s
    /\ world run.1
       = (requests_post (yandex_api_url user_id host_id)
            (YANDEX_HEADERS token) (JObj [("url", JStr url)]) (world s)).1
    /\ trace run.1
       = (trace s ++ EvPost (yandex_api_url user_id host_id)
                       (JObj [("url", JStr url)]) :: logs)%list
    /\ Forall is_error_log logs
    /\ (length logs <= 2)%nat
    /\ (status <> ST_FAIL -> logs = []).
Proof.
  cbv zeta. unfold send_reindex_yandex. munfold. simpl.
  repeat (case_match; simplify_eq/=);
    rewrite <- ?app_assoc; simpl;
    do 3 eexists; (split; [reflexivity|]); (split; [reflexivity|]);
    (split; [reflexivity|]);
    (split; [first [reflexivity | by rewrite app_nil_r]|]);
    (split; [repeat constructor|]); (split; [simpl; lia|]);
    first [done | by intros []].
Qed.

(** X3.  One call of [send_reindex_yandex] makes exactly one POST, to the
    queue of the host under the user, with the URL as its only field;
    it touches no file and never retries.  What follows the POST in the
    trace are at most two log records of level ERROR, and none at all
    unless the outcome is Failure. *)
Theorem send_reindex_yandex_trace user_id host_id url (s : state W) :
  let run := send_reindex_yandex token user_id host_id url s in
  fs run.1 = fs s
  /\ exists logs,
       trace run.1
       = (trace s ++ EvPost (yandex_api_url user_id host_id)
                       (JObj [("url", JStr url)]) :: logs)%list
       /\ Forall is_error_log logs
       /\ (length logs <= 2)%nat
       /\ (forall status error,
             run.2 = Ok (status, error) -> status <> ST_FAIL -> logs = []).
Proof.
  cbv zeta.
  destruct (send_reindex_yandex_events user_id host_id url s)
    as (status & error & logs & R & F & _ & T & L & N & Q).
  split; [done|]. exists logs. repeat split; try done.
  intros status' error'. rewrite R. intros [= <- <-]. exact Q.
Qed.

(** The effects of the secondary submitter, in full. *)
Lemma publish_url_google_events url action (s : state W) :
  let run := publish_url_google url action s in
  fs run.1 = fs s
  /\ match (credentials_refresh (world s)).2 with
     | Raise e =>
         run.2 = Raise e
         /\ trace run.1
            = (trace s
               ++ [EvRefresh;
                   EvLog ERROR "Ошибка при получении токена Google"])%list
     | Ok _ =>
         exists status error logs,
           run.2 = Ok (status, error)
           /\ trace run.1
              = (trace s ++ EvRefresh
                   :: EvPost GOOGLE_API_BASE (google_payload url action)
                   :: logs)%list
           /\ Forall is_error_log logs
           /\ (status <> ST_FAIL -> logs = [])
     end.
Proof.
  cbv zeta. unfold publish_url_google. munfold.
  rewrite get_access_token_run.
  destruct (credentials_refresh (world s)) as [w [t|e]]; simpl; [|done].
  repeat (case_match; simplify_eq/=);
    rewrite <- ?app_assoc; simpl;
    (split; [reflexivity|]); do 3 eexists; (split; [reflexivity|]);
    (split; [first [reflexivity | by rewrite app_nil_r]|]);
    (split; [repeat constructor|]);
    first [done | by intros []].
Qed.

(** X4.  Every call of [publish_url_google] asks for a fresh access
    token first.  When the refresh fails the exception is logged and
    passed on and no POST is made; when it succeeds exactly one POST
    follows, to the publish endpoint with the URL and the action, then
    log records of level ERROR only, and none unless the outcome is
    Failure.  No file is touched. *)
Theorem publish_url_google_trace url action (s : state W) :
  let run := publish_url_google url action s in
  fs run.1 = fs s
  /\ (forall e,
        (credentials_refresh (world s)).2 = Raise e ->
        run.2 = Raise e
        /\ trace run.1
           = (trace s
              ++ [EvRefresh;
                  EvLog ERROR "Ошибка при получении токена Google"])%list)
  /\ (forall access_token,
        (credentials_refresh (world s)).2 = Ok access_token ->
        exists logs,
          trace run.1
          = (trace s ++ EvRefresh
               :: EvPost GOOGLE_API_BASE (google_payload url action)
               :: logs)%list
          /\ Forall is_error_log logs
          /\ (forall status error,
                run.2 = Ok (status, error) -> status <> ST_FAIL ->
                logs = [])).
Proof.
  cbv zeta.
  destruct (publish_url_google_events url action s) as [F E].
  split; [done|]. split.
  - intros e R. by rewrite R in E.
  - intros t R. rewrite R in E.
    destruct E as (status & error & logs & Ro & T & L & Q).
    exists logs. repeat split; try done.
    intros status' error'. rewrite Ro. intros [= <- <-]. exact Q.
Qed.

End Submissions.

Section Loop.
Context `{PyRuntime} {W : Type} `{Network W} `{Storage W}.
Variables token site_url : string.

Lemma count_app p (a b : list event) :
  count p (a ++ b) = (count p a + count p b)%nat.
Proof. unfold count. by rewrite List.filter_app, length_app. Qed.

Lemma count_logs p (logs : list event) :
  (forall lvl msg, p (EvLog lvl msg) = false) ->
  Forall is_error_log logs -> count p logs = 0%nat.
Proof.
  intros Hp. unfold count. induction 1 as [|ev logs Hev _ IH]; [done|].
  destruct ev as [| | | | | | |lvl msg]; try done. simpl. by rewrite Hp.
Qed.

(** One pass of the loop body: what it does to the outside. *)
Lemma loop_body_events user_id host_id fieldnames st cells (s : state W) :
  let run := loop_body token user_id host_id fieldnames st cells s in
  fs run.1 = fs s
  /\ exists evs,
       trace run.1 = (trace s ++ evs)%list
       /\ forall st', run.2 = Ok st' ->
            count is_sleep evs
            = (processed_urls st' - processed_urls st)%nat
            /\ count is_refresh evs
               = (processed_urls st' - processed_urls st)%nat
            /\ count is_post evs
               = (2 * (processed_urls st' - processed_urls st))%nat.
Proof.
  cbv zeta. unfold loop_body. munfold.
  destruct (cell_strip (row_url fieldnames cells)) as [url|e]; simpl.
  2: { split; [done|]. exists []. by rewrite app_nil_r. }
  destruct (PyStr.falsy url); simpl.
  { split; [done|]. eexists. split; [reflexivity|].
    intros st' [= <-]. simpl. rewrite Nat.sub_diag. done. }
  set (s0 := mkState (world s) (fs s)
               (trace s ++ [EvLog INFO "Обработка URL"])%list).
  destruct (send_reindex_yandex_events token user_id host_id url s0)
    as (ps & pe & logs1 & R1 & F1 & _ & T1 & L1 & _).
  destruct (send_reindex_yandex token user_id host_id url s0)
    as [s1 r1]; simpl in *. subst r1. simpl.
  destruct (publish_url_google_events url "URL_UPDATED" s1) as [F2 E2].
  destruct (credentials_refresh (world s1)) as [w [t|e]]; simpl in *.
  - destruct E2 as (gs & ge & logs2 & R2 & T2 & L2 & _).
    destruct (publish_url_google url "URL_UPDATED" s1)
      as [s2 r2]; simpl in *. subst r2. simpl.
    split; [congruence|].
    exists ([EvLog INFO "Обработка URL"]
            ++ EvPost (yandex_api_url user_id host_id)
                 (JObj [("url", JStr url)]) :: logs1
            ++ EvRefresh
               :: EvPost GOOGLE_API_BASE (google_payload url "URL_UPDATED")
               :: logs2
            ++ [EvLog INFO "Результат"; EvSleep 1])%list.
    split.
    + rewrite T2, T1. subst s0. simpl. by rewrite <- !app_assoc.
    + intros st' [= <-]. simpl.
      replace (S (processed_urls st) - processed_urls st)%nat with 1%nat
        by lia.
      change (EvLog INFO "Обработка URL"
              :: EvPost (yandex_api_url user_id host_id)
                   (JObj [("url", JStr url)])
              :: (logs1
                  ++ EvRefresh
                     :: EvPost GOOGLE_API_BASE
                          (google_payload url "URL_UPDATED")
                     :: (logs2 ++ [EvLog INFO "Результат"; EvSleep 1])))%list
        with ([EvLog INFO "Обработка URL";
               EvPost (yandex_api_url user_id host_id)
                 (JObj [("url", JStr url)])]
              ++ logs1
              ++ [EvRefresh;
                  EvPost GOOGLE_API_BASE (google_payload url "URL_UPDATED")]
              ++ logs2 ++ [EvLog INFO "Результат"; EvSleep 1])%list.
      rewrite !count_app, !(count_logs _ logs1), !(count_logs _ logs2)
        by done.
      done.
  - destruct E2 as [R2 T2].
    destruct (publish_url_google url "URL_UPDATED" s1)
      as [s2 r2]; simpl in *. subst r2. simpl.
    split; [congruence|]. eexists. split; [|done].
    rewrite T2, T1. subst s0. simpl. rewrite <- !app_assoc. reflexivity.
Qed.

(** The loop: it touches no file, and when it runs to its end it has
    paused, refreshed the token and posted in step with the rows it
    counts as processed. *)
Lemma for_rows_events user_id host_id fieldnames records st (s : state W) :
  let run := for_rows token user_id host_id fieldnames records st s in
  fs run.1 = fs s
  /\ exists evs,
       trace run.1 = (trace s ++ evs)%list
       /\ forall st', run.2 = Ok st' ->
            (processed_urls st <= processed_urls st')%nat
            /\ count is_sleep evs
               = (processed_urls st' - processed_urls st)%nat
            /\ count is_refresh evs
               = (processed_urls st' - processed_urls st)%nat
            /\ count is_post evs
               = (2 * (processed_urls st' - processed_urls st))%nat.
Proof.
  cbv zeta. revert st s.
  induction records as [|cells records IH]; intros st s.
  - simpl. split; [done|]. exists []. rewrite app_nil_r. split; [done|].
    intros st' [= <-]. rewrite Nat.sub_diag. done.
  - destruct cells as [|c cells]; [by apply IH|].
    cbn [for_rows]. munfold.
    destruct (loop_body_events user_id host_id fieldnames st (c :: cells) s)
      as (F1 & evs1 & T1 & C1).
    destruct (loop_body token user_id host_id fieldnames st (c :: cells) s)
      as [s1 [st1|e]] eqn:B; simpl in *.
    + destruct (IH st1 s1) as (F2 & evs2 & T2 & C2).
      split; [congruence|]. exists (evs1 ++ evs2)%list.
      split; [by rewrite T2, T1, <- app_assoc|].
      intros st' R. destruct (C2 st' R) as (Hle & S2 & R2 & P2).
      destruct (C1 st1 eq_refl) as (S1 & R1 & P1).
      pose proof (f_equal snd B) as B2. simpl in B2.
      apply loop_body_completed in B2 as (url & _ & _ & Hcase).
      assert (processed_urls st <= processed_urls st1)%nat
        by (destruct Hcase as [(_ & Hp & _)|(_ & Hp & _)]; lia).
      rewrite !count_app, S1, S2, R1, R2, P1, P2. lia.
    + split; [done|]. exists evs1. done.
Qed.

End Loop.

Section Orchestrator.
Context `{PyRuntime} {W : Type} `{Network W} `{Storage W}.
Variables token site_url : string.

(** X5.  [process_urls] never raises: whatever the network answers and
    whatever the files hold, every exception of identity resolution, of
    reading the table, of the loop and of the submitters ends in a log
    record and a normal return. *)
Theorem process_urls_never_raises input_file output_file (s : state W) :
  (process_urls token site_url input_file output_file s).2 = Ok tt.
Proof.
  unfold process_urls, path_exists, open_read, write_file, write_into.
  munfold.
  repeat (case_match; simplify_eq/=); try done;
    match goal with a : unit |- _ => by destruct a end.
Qed.

(** X6.  When identity resolution fails, [process_urls] logs the error
    and returns at once: it does not look for the input file, reads and
    writes nothing and submits nothing; the only events of the run are
    those of identity resolution and the error record. *)
Theorem identity_failure_aborts input_file output_file (s : state W) e :
  (resolve_identity token site_url s).2 = Raise e ->
  let run := process_urls token site_url input_file output_file s in
  run.2 = Ok tt
  /\ fs run.1 = fs s
  /\ exists ids,
       Forall is_identity_event ids
       /\ trace run.1
          = (trace s ++ ids ++ [EvLog ERROR "Ошибка при инициализации"])%list.
Proof.
  intros R. cbv zeta.
  destruct (resolve_identity_effects token site_url s)
    as (F & ids & T & I & _).
  unfold process_urls. munfold.
  destruct (resolve_identity token site_url s) as [s1 r]; simpl in *.
  subst r. simpl. repeat split; try done.
  exists ids. split; [done|]. by rewrite T, <- app_assoc.
Qed.

(** X7.  No file but the output file is ever changed, and the output
    file only at the very end.  After [process_urls] the file system is
    the one it started from, unless the input file has a [URL] column,
    every data row of it was read without an exception and the output
    file could be opened for writing; the output file then holds the
    header and one record per data row whose stripped URL is not empty,
    in the order of the table, or, when the writing was broken off,
    what the broken writing left of it. *)
Theorem process_urls_all_or_nothing input_file output_file (s : state W) :
  let run := process_urls token site_url input_file output_file s in
  fs run.1 = fs s
  \/ exists records fieldnames urls rows,
       fs s !! input_file = Some records
       /\ reader_fieldnames records = Some fieldnames
       /\ "URL" ∈ fieldnames
       /\ Forall2
            (fun cells url =>
               cell_strip (row_url fieldnames cells) = Ok url)
            (data_rows (tail records)) urls
       /\ URL <$> rows = List.filter (fun u => negb (PyStr.falsy u)) urls
       /\ exists w,
            (open_write output_file w).2 = Ok tt
            /\ match (write_records output_file (output_records rows)
                        (open_write output_file w).1).2 with
               | Stored =>
                   fs run.1 = <[ output_file := output_records rows ]> (fs s)
               | Torn kept _ =>
                   fs run.1 = <[ output_file := kept ]> (fs s)
               end.
Proof.
  cbv zeta.
  destruct (resolve_identity_effects token site_url s) as (F & _).
  unfold process_urls, path_exists, open_read, write_file, write_into.
  munfold.
  destruct (resolve_identity token site_url s) as [s1 [[user_id host_id]|e]];
    simpl in *; [|by left].
  rewrite F.
  destruct (fs s !! input_file) as [records|] eqn:Hin; simpl;
    rewrite ?Hin; simpl; [|by left].
  destruct (reader_fieldnames records) as [fieldnames|] eqn:Hn; simpl;
    [|by left].
  case_bool_decide as Hurl; simpl; [|by left].
  match goal with
  | |- context [for_rows ?t ?u ?h ?f ?r ?st ?s0] =>
      pose proof (for_rows_events t u h f r st s0) as (F2 & _);
      pose proof (for_rows_completed t u h f r st) as C;
      destruct (for_rows t u h f r st s0) as [s2 [st'|e]] eqn:R
  end; simpl in *; [|left; congruence].
  specialize (C st' _ (f_equal snd R)).
  destruct C as (urls & rows & Hf2 & Hr & Hu & _). simpl in Hr. rewrite Hr.
  destruct (open_write output_file (world s2)) as [w1 [[]|e]] eqn:O; simpl;
    [|left; congruence].
  right. exists records, fieldnames, urls, rows.
  repeat split; try done.
  exists (world s2). rewrite O. simpl. split; [done|].
  destruct (write_records output_file (output_records rows) w1)
    as [w2 [|kept e]]; simpl; congruence.
Qed.

End Orchestrator.

Section Completion.
Context `{PyRuntime} {W : Type} `{Network W} `{Storage W}.
Variables token site_url : string.
Variable Inv : W -> Prop.
Hypothesis reliable : refresh_reliable Inv.

Lemma get_yandex_user_id_world (s : state W) :
  world (get_yandex_user_id token s).1
  = (requests_get (YANDEX_API_BASE +:+ "/user") (YANDEX_HEADERS token)
       (world s)).1.
Proof.
  unfold get_yandex_user_id. munfold. simpl.
  repeat (case_match; simplify_eq/=); done.
Qed.

Lemma resolve_identity_keeps (s : state W) :
  Inv (world s) -> Inv (world (resolve_identity token site_url s).1).
Proof.
  intros Hi. destruct reliable as (Hget & _).
  unfold resolve_identity. munfold.
  pose proof (build_yandex_host_id_run site_url s) as B.
  destruct (build_yandex_host_id site_url s) as [s1 [host_id|e]].
  - assert (world s1 = world s) as Hw
      by (repeat (case_match; simplify_eq/=); done).
    pose proof (get_yandex_user_id_world s1) as G.
    destruct (get_yandex_user_id token s1) as [s2 [user_id|e]];
      simpl in *; rewrite G, Hw; by apply Hget.
  - simpl. repeat (case_match; simplify_eq/=); done.
Qed.

Lemma publish_url_google_keeps url action (s : state W) :
  Inv (world s) ->
  Inv (world (publish_url_google url action s).1)
  /\ exists status error,
       (publish_url_google url action s).2 = Ok (status, error).
Proof.
  intros Hi. destruct reliable as (_ & Hpost & Href).
  destruct (Href _ Hi) as (Hi1 & t & Ht).
  pose proof (publish_url_google_run url action s t Ht) as R.
  split.
  - unfold publish_url_google in *. munfold.
    rewrite get_access_token_run in *.
    destruct (credentials_refresh (world s)) as [w [t'|e]]; simpl in *;
      [|done].
    pose proof (Hpost GOOGLE_API_BASE (google_headers t')
                  (google_payload url action) w Hi1) as Hi2.
    repeat (case_match; simplify_eq/=); done.
  - rewrite R. destruct (google_table _ _). by eexists _, _.
Qed.

Lemma loop_body_keeps user_id host_id fieldnames st cells (s : state W) :
  Inv (world s) ->
  is_Some (row_url fieldnames cells) ->
  Inv (world (loop_body token user_id host_id fieldnames st cells s).1)
  /\ exists st',
       (loop_body token user_id host_id fieldnames st cells s).2 = Ok st'.
Proof.
  intros Hi [cell Hc]. destruct reliable as (_ & Hpost & _).
  unfold loop_body. munfold. rewrite Hc. simpl.
  destruct (PyStr.falsy (PyStr.strip cell)); simpl; [by eauto|].
  set (s0 := mkState _ _ _).
  destruct (send_reindex_yandex_events token user_id host_id
              (PyStr.strip cell) s0)
    as (ps & pe & logs & R1 & _ & W1 & _).
  destruct (send_reindex_yandex token user_id host_id (PyStr.strip cell) s0)
    as [s1 r1]; simpl in *. subst r1. simpl.
  assert (Inv (world s1)) as Hi1 by (rewrite W1; by apply Hpost).
  destruct (publish_url_google_keeps (PyStr.strip cell) "URL_UPDATED" s1 Hi1)
    as (Hi2 & gs & ge & R2).
  destruct (publish_url_google (PyStr.strip cell) "URL_UPDATED" s1)
    as [s2 r2]; simpl in *. subst r2. simpl. by eauto.
Qed.

Lemma for_rows_keeps user_id host_id fieldnames records st (s : state W) :
  Inv (world s) ->
  Forall (fun cells => is_Some (row_url fieldnames cells))
    (data_rows records) ->
  Inv (world (for_rows token user_id host_id fieldnames records st s).1)
  /\ exists st',
       (for_rows token user_id host_id fieldnames records st s).2 = Ok st'.
Proof.
  revert st s. induction records as [|cells records IH]; intros st s Hi Hr.
  - split; [done|by eexists].
  - destruct cells as [|c cells]; [by apply IH|].
    cbn [for_rows data_rows List.filter] in *. simpl negb in Hr.
    cbn iota in Hr. apply Forall_cons in Hr as [Hc Hr].
    unfold mbind, M_bind.
    destruct (loop_body_keeps user_id host_id fieldnames st (c :: cells) s
                Hi Hc) as (Hi1 & st1 & B).
    destruct (loop_body token user_id host_id fieldnames st (c :: cells) s)
      as [s1 r1]; simpl in *. subst r1. by apply IH.
Qed.


End Completion.

(** ** Stripping *)

Lemma of_bytes_bytes_of (s : string) : PyStr.of_bytes (PyStr.bytes_of s) = s.
Proof.
  unfold PyStr.of_bytes, PyStr.bytes_of.
  induction s as [|a s IH]; [done|].
  cbn [list_ascii_of_string]. rewrite !fmap_cons.
  cbn [string_of_list_ascii]. by rewrite ascii_N_embedding, IH.
Qed.

Lemma bytes_of_app (a b : string) :
  PyStr.bytes_of (a +:+ b) = (PyStr.bytes_of a ++ PyStr.bytes_of b)%list.
Proof.
  unfold PyStr.bytes_of. induction a as [|c a IH]; [done|].
  change (String c a +:+ b) with (String c (a +:+ b)).
  cbn [list_ascii_of_string]. rewrite !fmap_cons, IH. done.
Qed.

Lemma drop_space_blank fwd (pre l : list N) :
  forallb PyStr.is_space1 pre = true ->
  PyStr.drop_space fwd (pre ++ l) = PyStr.drop_space fwd l.
Proof.
  induction pre as [|a pre IH]; [done|].
  simpl. intros [Ha Hp]%andb_true_iff. rewrite Ha. by apply IH.
Qed.

Lemma drop_space_all_blank fwd (l : list N) :
  forallb PyStr.is_space1 l = true -> PyStr.drop_space fwd l = [].
Proof.
  intros Hl. rewrite <- (app_nil_r l). by rewrite drop_space_blank.
Qed.

Lemma is_space1_small (b : N) : PyStr.is_space1 b = true -> (b <= 32)%N.
Proof.
  unfold PyStr.is_space1, PyStr.in_range.
  destruct (N.leb_spec b 13), (N.leb_spec b 32); lia.
Qed.

Lemma is_space2_small (a b : N) : (b <= 32)%N -> PyStr.is_space2 a b = false.
Proof.
  intros Hb. unfold PyStr.is_space2.
  destruct (N.eqb_spec b 133), (N.eqb_spec b 160);
    first [lia | by rewrite ?andb_false_r].
Qed.

Lemma is_space3_small_mid (a b c : N) :
  (b <= 32)%N -> PyStr.is_space3 a b c = false.
Proof.
  intros Hb. unfold PyStr.is_space3.
  destruct (N.eqb_spec b 154), (N.eqb_spec b 128), (N.eqb_spec b 129);
    first [lia | by destruct (a =? 225)%N, (a =? 226)%N, (a =? 227)%N].
Qed.

Lemma is_space3_small_last (a b c : N) :
  (c <= 32)%N -> PyStr.is_space3 a b c = false.
Proof.
  intros Hc. unfold PyStr.is_space3, PyStr.in_range.
  destruct (N.eqb_spec c 128), (N.eqb_spec c 168), (N.eqb_spec c 169),
    (N.eqb_spec c 175), (N.eqb_spec c 159), (N.leb_spec 128 c);
    first [lia | simpl; by rewrite ?andb_false_r].
Qed.

(** A list that starts with no white-space character keeps all its
    bytes, also when ASCII white space follows it. *)
Lemma drop_space_starts (l post : list N) :
  l <> [] -> starts_space l = false ->
  forallb PyStr.is_space1 post = true ->
  PyStr.drop_space true (l ++ post) = (l ++ post)%list.
Proof.
  intros Hl Hs Hpost.
  assert (forall b, b ∈ post -> (b <= 32)%N) as Hsmall.
  { intros b Hb. apply is_space1_small.
    rewrite forallb_forall in Hpost. apply Hpost.
    by apply list_elem_of_In. }
  destruct l as [|a [|b [|c l]]]; [done| | |]; simpl in Hs.
  - destruct post as [|b [|c post]]; simpl; rewrite Hs; [done| |].
    + rewrite is_space2_small; [done|]. apply Hsmall. by left.
    + rewrite is_space2_small by (apply Hsmall; by left).
      rewrite is_space3_small_mid; [done|]. apply Hsmall. by left.
  - apply orb_false_iff in Hs as [H1 H2].
    destruct post as [|c post]; simpl; rewrite H1, H2; [done|].
    rewrite is_space3_small_last; [done|]. apply Hsmall. by left.
  - apply orb_false_iff in Hs as [Hs H3].
    apply orb_false_iff in Hs as [H1 H2].
    simpl. by rewrite H1, H2, H3.
Qed.

(** A list that ends with no white-space character keeps all its bytes
    when it is stripped from the right. *)
Lemma drop_space_ends (l : list N) :
  ends_space l = false -> PyStr.drop_space false (rev l) = rev l.
Proof.
  unfold ends_space.
  destruct (rev l) as [|c [|b [|a r]]]; simpl; [done| | |].
  - by intros ->.
  - intros [-> ->]%orb_false_iff. done.
  - intros [[-> ->]%orb_false_iff ->]%orb_false_iff. done.
Qed.

(** White space around a tidy string is what [strip] removes, and all
    it removes. *)
Lemma strip_padded (pre core post : string) :
  blank pre = true -> blank post = true -> tidy core = true ->
  PyStr.strip (pre +:+ core +:+ post) = core.
Proof.
  unfold blank, tidy, PyStr.strip. intros Hpre Hpost [Hs He]%andb_true_iff.
  apply negb_true_iff in Hs, He.
  rewrite !bytes_of_app, drop_space_blank by done.
  rewrite <- (of_bytes_bytes_of core) at 2. f_equal.
  destruct (PyStr.bytes_of core) as [|a l] eqn:Hc.
  - rewrite app_nil_l, (drop_space_all_blank true) by done. done.
  - rewrite drop_space_starts by done.
    rewrite rev_app_distr, drop_space_blank.
    + rewrite drop_space_ends by done. apply rev_involutive.
    + rewrite forallb_forall in *. intros x Hx. apply Hpost.
      by apply in_rev.
Qed.

Section Rows.
Context `{PyRuntime} {W : Type} `{Network W} `{Storage W}.
Variable token : string.

(** X9.  A data row whose URL cell is empty or holds ASCII white space
    only is skipped: the pass counts the row, logs a warning and does
    nothing else, with no call to either API, no pause and no row added
    to the results. *)
Theorem blank_row_skipped user_id host_id fieldnames st cells cell
    (s : state W) :
  row_url fieldnames cells = Some cell ->
  blank cell = true ->
  loop_body token user_id host_id fieldnames st cells s
  = (mkState (world s) (fs s)
       (trace s ++ [EvLog WARNING "Пропуск пустого URL в строке"]),
     Ok {| total_urls := S (total_urls st);
           processed_urls := processed_urls st;
           results := results st |}).
Proof.
  intros Hc Hb.
  pose proof (strip_padded "" "" cell eq_refl Hb eq_refl) as Hs.
  change ("" +:+ "" +:+ cell) with cell in Hs.
  unfold loop_body. munfold. rewrite Hc. simpl. by rewrite Hs.
Qed.

(** X10.  White space around a URL is neither sent nor recorded: for a
    cell made of a URL that neither starts nor ends with white space,
    with ASCII white space before and after it, the pass posts exactly
    that URL to the primary API and, when it completes, appends one row
    whose URL is that URL. *)
Theorem padded_url_submitted_stripped user_id host_id fieldnames st cells
    pre url post (s : state W) :
  row_url fieldnames cells = Some (pre +:+ url +:+ post) ->
  blank pre = true -> blank post = true -> tidy url = true ->
  url <> "" ->
  let run := loop_body token user_id host_id fieldnames st cells s in
  (exists evs,
     trace run.1
     = (trace s
        ++ EvLog INFO "Обработка URL"
           :: EvPost (yandex_api_url user_id host_id)
                (JObj [("url", JStr url)])
           :: evs)%list)
  /\ (forall st',
        run.2 = Ok st' ->
        exists row, results st' = (results st ++ [row])%list
                    /\ URL row = url).
Proof.
  intros Hc Hpre Hpost Ht Hne. cbv zeta.
  pose proof (strip_padded pre url post Hpre Hpost Ht) as Hs.
  split.
  - assert (PyStr.falsy url = false) as Hf
      by (destruct (PyStr.falsy url) eqn:E; [by apply falsy_spec in E|done]).
    unfold loop_body. munfold. rewrite Hc. simpl. rewrite Hs, Hf. simpl.
    set (s0 := mkState (world s) (fs s)
                 (trace s ++ [EvLog INFO "Обработка URL"])%list).
    destruct (send_reindex_yandex_events token user_id host_id url s0)
      as (ps & pe & logs & R1 & _ & _ & T1 & _).
    destruct (send_reindex_yandex token user_id host_id url s0)
      as [s1 r1]; simpl in *. subst r1. simpl.
    destruct (publish_url_google_effects url "URL_UPDATED" s1)
      as (_ & evs & T2).
    destruct (publish_url_google url "URL_UPDATED" s1)
      as [s2 [[gs ge]|e]]; simpl in *;
      rewrite T2, T1; subst s0; simpl; rewrite <- !app_assoc; simpl;
      eexists; reflexivity.
  - intros st' R. apply loop_body_completed in R
      as (url' & Hu & _ & Hcase).
    rewrite Hc in Hu. simpl in Hu. rewrite Hs in Hu. injection Hu as <-.
    destruct Hcase as [(-> & _)|(_ & _ & row & Hrow & Hr)]; [done|].
    by exists row.
Qed.

(** X11.  The [URL] column is found whatever white space surrounds its
    name and whatever byte-order marks it carries: when a header name,
    once the ASCII white space around it is dropped, is a string that
    [replace] turns into [URL], the cleaned field names contain [URL]. *)
Theorem padded_URL_header_found (names : list string) (rest : csv)
    pre core post :
  (pre +:+ core +:+ post) ∈ names ->
  blank pre = true -> blank post = true -> tidy core = true ->
  PyStr.replace_bom core = "URL" ->
  exists fieldnames,
    reader_fieldnames (names :: rest) = Some fieldnames
    /\ "URL" ∈ fieldnames.
Proof.
  intros Hin Hpre Hpost Ht Hb.
  exists (clean_fieldnames names). split.
  - unfold reader_fieldnames. simpl. destruct names; [|done].
    by apply elem_of_nil in Hin.
  - unfold clean_fieldnames. apply list_elem_of_fmap.
    exists (pre +:+ core +:+ post). split; [|done].
    by rewrite strip_padded.
Qed.

End Rows.

(** ** The rows of [DictReader] *)

Lemma zip_insert_absent (l : list (string * string))
    (acc : gmap string (option string)) key :
  key ∉ l.*1 ->
  foldl (fun d kv => <[ kv.1 := Some kv.2 ]> d) acc l !! key = acc !! key.
Proof.
  revert acc. induction l as [|[k v] l IH]; intros acc Hk; [done|].
  simpl in *. apply not_elem_of_cons in Hk as [Hne Hk].
  rewrite IH by done. by rewrite lookup_insert_ne.
Qed.

Lemma zip_insert_present (l : list (string * string))
    (acc : gmap string (option string)) key v :
  NoDup l.*1 -> (key, v) ∈ l ->
  foldl (fun d kv => <[ kv.1 := Some kv.2 ]> d) acc l !! key = Some (Some v).
Proof.
  revert acc. induction l as [|[k w] l IH]; intros acc Hnd Hin.
  { by apply elem_of_nil in Hin. }
  simpl in *. apply NoDup_cons in Hnd as [Hk Hnd].
  apply elem_of_cons in Hin as [[= <- <-]|Hin].
  - rewrite zip_insert_absent by done. apply lookup_insert_eq.
  - by apply IH.
Qed.

Lemma zip_insert_some (l : list (string * string))
    (acc : gmap string (option string)) key :
  key ∈ l.*1 \/ is_Some (acc !! key) ->
  is_Some (foldl (fun d kv => <[ kv.1 := Some kv.2 ]> d) acc l !! key).
Proof.
  revert acc. induction l as [|[k w] l IH]; intros acc Hor.
  { destruct Hor as [Hin|Hs]; [by apply elem_of_nil in Hin|done]. }
  simpl in *. apply IH.
  destruct (decide (k = key)) as [->|Hne].
  - right. rewrite lookup_insert_eq. by eexists.
  - destruct Hor as [Hin|Hs].
    + apply elem_of_cons in Hin as [?|Hin]; [congruence|by left].
    + right. by rewrite lookup_insert_ne.
Qed.

Lemma fill_insert_absent (ks : list string)
    (acc : gmap string (option string)) key :
  key ∉ ks ->
  foldl (fun d k => <[ k := None ]> d) acc ks !! key = acc !! key.
Proof.
  revert acc. induction ks as [|k ks IH]; intros acc Hk; [done|].
  simpl. apply not_elem_of_cons in Hk as [Hne Hk].
  rewrite IH by done. by rewrite lookup_insert_ne.
Qed.

Lemma fill_insert_present (ks : list string)
    (acc : gmap string (option string)) key :
  key ∈ ks ->
  foldl (fun d k => <[ k := None ]> d) acc ks !! key = Some None.
Proof.
  revert acc. induction ks as [|k ks IH]; intros acc Hin.
  { by apply elem_of_nil in Hin. }
  simpl. destruct (decide (key ∈ ks)) as [Hks|Hks]; [by apply IH|].
  apply elem_of_cons in Hin as [->|Hin]; [|done].
  rewrite fill_insert_absent by done. apply lookup_insert_eq.
Qed.

Lemma zip_keys_NoDup (l k : list string) : NoDup l -> NoDup (zip l k).*1.
Proof.
  revert k. induction l as [|x l IH]; intros k Hnd; [constructor|].
  destruct k as [|y k]; [constructor|]. simpl.
  apply NoDup_cons in Hnd as [Hx Hnd]. apply NoDup_cons. split; [|by apply IH].
  intros Hin. apply list_elem_of_fmap in Hin as [[x' y'] [Hx' Hin]].
  simpl in Hx'. subst x'. by apply elem_of_zip_l in Hin.
Qed.

(** X12.  The row [DictReader] builds has exactly the field names as
    keys, whatever the length of the record, so once the header holds a
    column the default of [row.get] is never used for it; and when the
    field names are distinct the value under a name is the cell at the
    position of the name, or [None] when the record is too short to have
    one. *)
Theorem DictReader_row_lookup (fieldnames cells : list string) (key : string) :
  (is_Some (DictReader_row fieldnames cells !! key) <-> key ∈ fieldnames)
  /\ (NoDup fieldnames ->
      forall i, fieldnames !! i = Some key ->
                DictReader_row fieldnames cells !! key = Some (cells !! i)).
Proof.
  unfold DictReader_row. split; [split|].
  - intros Hs. destruct (decide (key ∈ fieldnames)) as [|Hno]; [done|].
    exfalso. rewrite fill_insert_absent, zip_insert_absent in Hs.
    + rewrite lookup_empty in Hs. by destruct Hs.
    + intros Hin. apply list_elem_of_fmap in Hin as [[x y] [-> Hin]].
      apply Hno. by apply elem_of_zip_l in Hin.
    + intros Hin. apply Hno.
      apply list_elem_of_lookup in Hin as [j Hj]. rewrite lookup_drop in Hj.
      by eapply list_elem_of_lookup_2.
  - intros Hin.
    destruct (decide (key ∈ drop (length cells) fieldnames)) as [Hd|Hd].
    + rewrite fill_insert_present by done. by eexists.
    + rewrite fill_insert_absent by done. apply zip_insert_some. left.
      apply list_elem_of_lookup in Hin as [i Hi].
      destruct (cells !! i) as [c|] eqn:Hc.
      * apply list_elem_of_fmap. exists (key, c). split; [done|].
        eapply list_elem_of_lookup_2. by apply lookup_zip_Some.
      * exfalso. apply Hd. apply list_elem_of_lookup.
        exists (i - length cells)%nat. rewrite lookup_drop.
        apply lookup_ge_None in Hc.
        by replace (length cells + (i - length cells))%nat with i by lia.
  - intros Hnd i Hi. destruct (cells !! i) as [c|] eqn:Hc.
    + rewrite fill_insert_absent.
      * apply zip_insert_present; [by apply zip_keys_NoDup|].
        eapply list_elem_of_lookup_2. by apply lookup_zip_Some.
      * intros Hin. apply list_elem_of_lookup in Hin as [j Hj].
        rewrite lookup_drop in Hj.
        pose proof (NoDup_lookup _ _ _ _ Hnd Hi Hj).
        apply lookup_lt_Some in Hc. lia.
    + apply fill_insert_present. apply list_elem_of_lookup.
      exists (i - length cells)%nat. rewrite lookup_drop.
      apply lookup_ge_None in Hc.
      by replace (length cells + (i - length cells))%nat with i by lia.
Qed.

Section Pauses.
Context `{PyRuntime} {W : Type} `{Network W} `{Storage W}.
Variable token : string.

(** X14.  The loop is paced by its results: when it runs to its end,
    the events it added hold one pause, one token refresh and two POSTs
    for every row it counts as processed, and it counts as processed
    exactly the rows it appended to the results. *)
Theorem one_pause_per_processed_url user_id host_id fieldnames records st st'
    (s : state W) :
  (for_rows token user_id host_id fieldnames records st s).2 = Ok st' ->
  exists evs n,
    trace (for_rows token user_id host_id fieldnames records st s).1
    = (trace s ++ evs)%list
    /\ processed_urls st' = (processed_urls st + n)%nat
    /\ length (results st') = (length (results st) + n)%nat
    /\ count is_sleep evs = n
    /\ count is_refresh evs = n
    /\ count is_post evs = (2 * n)%nat.
Proof.
  intros R.
  destruct (for_rows_events token user_id host_id fieldnames records st s)
    as (_ & evs & T & C).
  destruct (C st' R) as (Hle & S1 & R1 & P1).
  destruct (for_rows_completed token user_id host_id fieldnames records st
              st' s R) as (urls & rows & _ & Hr & _ & _ & Hp).
  exists evs, (length rows). repeat split; try done.
  - by rewrite Hr, length_app.
  - rewrite S1, Hp. lia.
  - rewrite R1, Hp. lia.
  - rewrite P1, Hp. lia.
Qed.

End Pauses.

(** ** Start-up *)

(** X15.  The module loads, and keeps its settings, exactly when the
    three environment variables are set and not empty, the
    service-account file exists and the credentials load from it; the
    settings it keeps are the values of the three variables. *)
Theorem startup_succeeds_iff (environ : gmap string string)
    (paths : gset string) (load : string -> result unit) (cfg : settings) :
  (startup environ paths load).2 = Ok cfg
  <-> (environ !! "YANDEX_API_TOKEN" = Some (cfg_token cfg)
       /\ cfg_token cfg <> ""
       /\ environ !! "SITE_URL" = Some (cfg_site_url cfg)
       /\ cfg_site_url cfg <> ""
       /\ environ !! "SERVICE_ACCOUNT_FILE" = Some (cfg_account_file cfg)
       /\ cfg_account_file cfg <> ""
       /\ cfg_account_file cfg ∈ paths
       /\ load (cfg_account_file cfg) = Ok tt).
Proof.
  unfold startup. split.
  - destruct (environ !! "YANDEX_API_TOKEN") as [[|a t]|]; simpl; try done.
    destruct (environ !! "SITE_URL") as [[|b u]|]; simpl; try done.
    destruct (environ !! "SERVICE_ACCOUNT_FILE") as [[|c f]|]; simpl;
      try done.
    case_bool_decide as Hp; simpl; [|done].
    destruct (load (String c f)) as [[]|e] eqn:L; [|done].
    intros [= <-]. simpl. repeat split; done.
  - intros (-> & Ht & -> & Hu & -> & Hf & Hp & L).
    destruct cfg as [[|a t] [|b u] [|c f]]; simpl in *; try done.
    rewrite bool_decide_true by done. simpl. by rewrite L.
Qed.

(** X16.  The settings are checked in a fixed order and the first one
    that fails decides the exception: a token that is missing or empty
    gives the [ValueError] on the token whatever the other settings are,
    then the site URL; every failure is logged once at level ERROR as
    the last event, and the file system is consulted only once the three
    variables are set. *)
Theorem startup_failure_order (environ : gmap string string)
    (paths : gset string) (load : string -> result unit) :
  let run := startup environ paths load in
  (unset (environ !! "YANDEX_API_TOKEN") = true ->
   run = ([EvLog ERROR "Не указан токен Яндекса в переменных окружения"],
          Raise (ValueError "YANDEX_API_TOKEN не найден в .env файле")))
  /\ (unset (environ !! "YANDEX_API_TOKEN") = false ->
      unset (environ !! "SITE_URL") = true ->
      run = ([EvLog ERROR "Не указан URL сайта в переменных окружения"],
             Raise (ValueError "SITE_URL не найден в .env файле")))
  /\ (forall e, run.2 = Raise e ->
        exists evs msg,
          run.1 = (evs ++ [EvLog ERROR msg])%list
          /\ (evs = []
              \/ (evs = [EvExists
                           (str_getenv (environ !! "SERVICE_ACCOUNT_FILE"))]
                  /\ unset (environ !! "YANDEX_API_TOKEN") = false
                  /\ unset (environ !! "SITE_URL") = false
                  /\ unset (environ !! "SERVICE_ACCOUNT_FILE") = false))).
Proof.
  cbv zeta. unfold startup. split; [|split].
  - by intros ->.
  - by intros -> ->.
  - intros e.
    destruct (unset (environ !! "YANDEX_API_TOKEN")); simpl.
    { intros _. exists []. eexists. by split; [|left]. }
    destruct (unset (environ !! "SITE_URL")); simpl.
    { intros _. exists []. eexists. by split; [|left]. }
    destruct (unset (environ !! "SERVICE_ACCOUNT_FILE")); simpl.
    { intros _. exists []. eexists. by split; [|left]. }
    case_bool_decide; simpl.
    + destruct (load _); [done|]. intros _. eexists [_]. eexists.
      split; [done|]. by right.
    + intros _. eexists [_]. eexists. split; [done|]. by right.
Qed.

Section Script.
Context `{PyRuntime} {W : Type} `{Network W} `{Storage W}.

(** [process_urls] returns, and only adds to the trace. *)
Lemma process_urls_appends token site_url input_file output_file
    (s : state W) :
  let run := process_urls token site_url input_file output_file s in
  run.2 = Ok tt /\ exists evs, trace run.1 = (trace s ++ evs)%list.
Proof.
  cbv zeta.
  destruct (resolve_identity_effects token site_url s)
    as (_ & ids & T & _).
  unfold process_urls, path_exists, open_read, write_file, write_into.
  munfold.
  destruct (resolve_identity token site_url s) as [s1 [[user_id host_id]|e]];
    simpl in *.
  2: { split; [done|]. eexists. rewrite T, <- app_assoc. reflexivity. }
  destruct (fs s1 !! input_file) as [records|] eqn:Hin; simpl;
    rewrite ?Hin; simpl.
  2: { split; [done|]. eexists. rewrite T, <- !app_assoc. reflexivity. }
  destruct (reader_fieldnames records) as [fieldnames|]; simpl.
  2: { split; [done|]. eexists. rewrite T, <- !app_assoc. reflexivity. }
  destruct (negb (bool_decide ("URL" ∈ fieldnames))); simpl.
  { split; [done|]. eexists. rewrite T, <- !app_assoc. reflexivity. }
  match goal with
  | |- context [for_rows ?t ?u ?h ?f ?r ?st ?s0] =>
      pose proof (for_rows_events t u h f r st s0) as (_ & evs & T2 & _);
      destruct (for_rows t u h f r st s0) as [s2 [st'|e]]
  end; simpl in *.
  - destruct (open_write output_file (world s2)) as [w1 [[]|e]]; simpl;
      [destruct (write_records output_file _ w1) as [w2 [|kept e]]; simpl|];
      (split; [done|]); eexists; rewrite T2, T, <- !app_assoc; reflexivity.
  - split; [done|]. eexists. rewrite T2, T, <- !app_assoc. reflexivity.
Qed.

(** X17.  The script as a whole.  When a setting is rejected the import
    ends with that exception and nothing else happens: no request is
    sent and no table is read or written.  Otherwise the script never
    raises, and what it does lies between the record that opens the run
    and the record that closes it, which is always written. *)
Theorem script_runs (environ : gmap string string) (paths : gset string)
    (load : string -> result unit) (s : state W) :
  let started := startup environ paths load in
  let run := script environ paths load s in
  (forall e,
     started.2 = Raise e ->
     run.2 = Raise e
     /\ world run.1 = world s
     /\ fs run.1 = fs s
     /\ trace run.1 = (trace s ++ started.1)%list)
  /\ (forall cfg,
        started.2 = Ok cfg ->
        run.2 = Ok tt
        /\ exists evs,
             trace run.1
             = (trace s ++ started.1
                ++ EvLog INFO "Запуск процесса переиндексации URL"
                   :: evs ++ [EvLog INFO "Процесс завершен"])%list).
Proof.
  cbv zeta. unfold script.
  destruct (startup environ paths load) as [evs0 [cfg|e]]; simpl.
  - split; [done|]. intros ? [= <-]. unfold main. munfold. simpl.
    match goal with
    | |- context [process_urls ?t ?u ?i ?o ?s0] =>
        destruct (process_urls_appends t u i o s0) as (R & evs & T);
        destruct (process_urls t u i o s0) as [s1 r1]
    end; simpl in *. subst r1. simpl. split; [done|].
    exists evs. rewrite T. simpl. by rewrite <- !app_assoc.
  - split; [|done]. by intros ? [= <-].
Qed.

End Script.

(** ** The further properties on concrete runs *)

Lemma sample_credential_reliable : refresh_reliable Scenes.valid_credential.
Proof.
  unfold refresh_reliable, Scenes.valid_credential. split; [|split].
  - by intros url headers w Hw.
  - by intros url headers body w Hw.
  - intros w Hw. split; [done|]. simpl. rewrite Hw. by eexists.
Qed.

(** The batch when the output file cannot be written, on the network
    where everything succeeds.  A path that cannot be opened: the
    error is logged, no file is changed and the results are lost.  A
    disk without room: the file is left empty. *)
Lemma unwritable_output_is_logged :
  let files : gmap string csv := {[ "urls.csv" := Scenes.three_rows ]} in
  let closed :=
    process_urls "TOKEN" "https://example.com" "urls.csv" "out/"
      (start succeeding files) in
  let full :=
    process_urls "TOKEN" "https://example.com" "urls.csv" "/dev/full"
      (start succeeding files) in
  closed.2 = Ok tt
  /\ fs closed.1 = files
  /\ last (trace closed.1) = Some (EvLog ERROR "Ошибка при обработке файла")
  /\ full.2 = Ok tt
  /\ fs full.1 = <[ "/dev/full" := [] ]> files
  /\ last (trace full.1) = Some (EvLog ERROR "Ошибка при обработке файла").
Proof. repeat split; vm_compute; reflexivity. Qed.

Lemma sample_output_writable :
  write_reliable Scenes.valid_credential "results.csv".
Proof. intros records w _. split; reflexivity. Qed.

(** X6 with the identity endpoint out of reach. *)
Lemma identity_failure_aborts_witness :
  (resolve_identity "TOKEN" "https://example.com"
     (start Scenes.unreachable ∅)).2
  = Raise (RequestException "Connection refused")
  /\ (run Scenes.unreachable ∅).2 = Ok tt
  /\ fs (run Scenes.unreachable ∅).1 = ∅.
Proof.
  assert ((resolve_identity "TOKEN" "https://example.com"
             (start Scenes.unreachable ∅)).2
          = Raise (RequestException "Connection refused")) as R
    by reflexivity.
  split; [exact R|].
  destruct (identity_failure_aborts "TOKEN" "https://example.com"
              "urls.csv" "results.csv" (start Scenes.unreachable ∅) _ R)
    as (Ro & F & _).
  split; [exact Ro|exact F].
Defined.


(** X9 at a cell of two spaces and a tab. *)
Lemma blank_row_skipped_witness :
  row_url ["URL"] [String " " (String " " (String "009" ""))]
  = Some (String " " (String " " (String "009" "")))
  /\ (loop_body "TOKEN" (JInt 42) "https:example.com:443" ["URL"]
        {| total_urls := 3; processed_urls := 2; results := [] |}
        [String " " (String " " (String "009" ""))]
        (start succeeding ∅)).2
     = Ok {| total_urls := 4; processed_urls := 2; results := [] |}.
Proof.
  split; [reflexivity|].
  rewrite (blank_row_skipped "TOKEN" (JInt 42) "https:example.com:443"
             ["URL"] {| total_urls := 3; processed_urls := 2; results := [] |}
             [String " " (String " " (String "009" ""))]
             (String " " (String " " (String "009" "")))
             (start succeeding ∅) eq_refl eq_refl).
  reflexivity.
Defined.

(** X10 at a URL that ends in a Cyrillic letter, with a space before it
    and a line end after it. *)
Lemma padded_url_submitted_stripped_witness :
  exists evs,
    trace (loop_body "TOKEN" (JInt 42) "https:example.com:443" ["URL"]
             {| total_urls := 0; processed_urls := 0; results := [] |}
             [" " +:+ "https://a.com/путь" +:+ String "010" ""]
             (start succeeding ∅)).1
    = EvLog INFO "Обработка URL"
      :: EvPost (yandex_api_url (JInt 42) "https:example.com:443")
           (JObj [("url", JStr "https://a.com/путь")])
      :: evs.
Proof.
  destruct (padded_url_submitted_stripped "TOKEN" (JInt 42)
              "https:example.com:443" ["URL"]
              {| total_urls := 0; processed_urls := 0; results := [] |}
              [" " +:+ "https://a.com/путь" +:+ String "010" ""]
              " " "https://a.com/путь" (String "010" "")
              (start succeeding ∅) eq_refl eq_refl eq_refl eq_refl
              ltac:(discriminate))
    as ((evs & T) & _).
  exists evs. exact T.
Defined.

(** X11 at a header whose first name has a byte-order mark at both ends
    and a trailing space. *)
Lemma padded_URL_header_found_witness :
  exists fieldnames,
    reader_fieldnames
      [[Scenes.BOM +:+ "URL" +:+ Scenes.BOM +:+ " "; "Note"];
       ["https://a.com/"; "x"]]
    = Some fieldnames
    /\ "URL" ∈ fieldnames.
Proof.
  apply (padded_URL_header_found
           [Scenes.BOM +:+ "URL" +:+ Scenes.BOM +:+ " "; "Note"]
           [["https://a.com/"; "x"]]
           "" (Scenes.BOM +:+ "URL" +:+ Scenes.BOM) " ");
    [by left|reflexivity..].
Defined.

(** X12 at a record too short for the [URL] column. *)
Lemma DictReader_row_lookup_witness :
  NoDup ["Name"; "URL"]
  /\ DictReader_row ["Name"; "URL"] ["two"] !! "URL" = Some None.
Proof.
  assert (NoDup ["Name"; "URL"]) as Hnd.
  { apply NoDup_cons. split; [|apply NoDup_singleton].
    intros Hin. apply list_elem_of_singleton in Hin. discriminate. }
  split; [exact Hnd|].
  destruct (DictReader_row_lookup ["Name"; "URL"] ["two"] "URL") as (_ & L).
  exact (L Hnd 1%nat eq_refl).
Defined.

(** X14 on three data rows, the second one empty. *)
Lemma one_pause_per_processed_url_witness :
  exists evs,
    trace (for_rows "TOKEN" (JInt 42) "https:example.com:443" ["URL"]
             (tail Scenes.three_rows)
             {| total_urls := 0; processed_urls := 0; results := [] |}
             (start succeeding ∅)).1
    = evs
    /\ count is_sleep evs = 2%nat
    /\ count is_refresh evs = 2%nat
    /\ count is_post evs = 4%nat.
Proof.
  assert (exists st',
            (for_rows "TOKEN" (JInt 42) "https:example.com:443" ["URL"]
               (tail Scenes.three_rows)
               {| total_urls := 0; processed_urls := 0; results := [] |}
               (start succeeding ∅)).2 = Ok st'
            /\ processed_urls st' = 2%nat) as (st' & R & P).
  { eexists. split; [vm_compute; reflexivity|reflexivity]. }
  destruct (one_pause_per_processed_url "TOKEN" (JInt 42)
              "https:example.com:443" ["URL"] (tail Scenes.three_rows)
              {| total_urls := 0; processed_urls := 0; results := [] |}
              st' (start succeeding ∅) R)
    as (evs & n & T & Hp & _ & Hs & Hr & Hpost).
  rewrite P in Hp. simpl in Hp. subst n.
  exists evs. repeat split; done.
Defined.

(** X17 with the three settings in the environment and the key file in
    place: the module loads and the script runs to its closing record. *)
Lemma script_runs_witness :
  (startup Scenes.environ Scenes.paths Scenes.loader).2
  = Ok {| cfg_token := "TOKEN"; cfg_site_url := "https://example.com";
          cfg_account_file := "key.json" |}
  /\ (script Scenes.environ Scenes.paths Scenes.loader
        (start succeeding ∅)).2 = Ok tt.
Proof.
  assert ((startup Scenes.environ Scenes.paths Scenes.loader).2
          = Ok {| cfg_token := "TOKEN"; cfg_site_url := "https://example.com";
                  cfg_account_file := "key.json" |}) as S
    by (vm_compute; reflexivity).
  split; [exact S|].
  destruct (script_runs Scenes.environ Scenes.paths Scenes.loader
              (start succeeding ∅)) as (_ & A).
  destruct (A _ S) as (R & _). exact R.
Defined.

(** X1 on the network where everything succeeds: the user id is the
    value of the reply. *)
Lemma get_yandex_user_id_result_witness :
  (get_yandex_user_id "TOKEN" (start succeeding ∅)).2 = Ok (JInt 42).
Proof.
  pose proof (get_yandex_user_id_result "TOKEN" (start succeeding ∅)) as T.
  cbv zeta in T. destruct T as (_ & _ & A).
  destruct (A _ eq_refl eq_refl) as (_ & _ & B).
  destruct (B _ eq_refl) as (C & _).
  exact (C _ eq_refl).
Defined.

(** X3 on the network where everything succeeds: the POST is the only
    event. *)
Lemma send_reindex_yandex_trace_witness :
  trace (send_reindex_yandex "TOKEN" (JInt 42) "https:example.com:443"
           "https://a.com/" (start succeeding ∅)).1
  = [EvPost (yandex_api_url (JInt 42) "https:example.com:443")
       (JObj [("url", JStr "https://a.com/")])].
Proof.
  destruct (send_reindex_yandex_trace "TOKEN" (JInt 42)
              "https:example.com:443" "https://a.com/" (start succeeding ∅))
    as (_ & logs & T & _ & _ & Q).
  rewrite (Q ST_OK None eq_refl ltac:(discriminate)) in T. exact T.
Defined.

(** X4 with a refused credential: the refresh is logged and no POST is
    made. *)
Lemma publish_url_google_trace_witness :
  (publish_url_google "https://a.com/" "URL_UPDATED"
     (start token_refused ∅)).2 = Raise (OtherError "invalid_grant")
  /\ trace (publish_url_google "https://a.com/" "URL_UPDATED"
              (start token_refused ∅)).1
     = [EvRefresh; EvLog ERROR "Ошибка при получении токена Google"].
Proof.
  destruct (publish_url_google_trace "https://a.com/" "URL_UPDATED"
              (start token_refused ∅)) as (_ & A & _).
  exact (A _ eq_refl).
Defined.

(** X15 with the three settings in the environment and the key file in
    place. *)
Lemma startup_succeeds_iff_witness :
  (startup Scenes.environ Scenes.paths Scenes.loader).2
  = Ok {| cfg_token := "TOKEN"; cfg_site_url := "https://example.com";
          cfg_account_file := "key.json" |}.
Proof.
  apply (proj2 (startup_succeeds_iff Scenes.environ Scenes.paths
                  Scenes.loader _)).
  simpl. repeat split; try reflexivity; discriminate.
Defined.

(** X16 with an empty token and everything else in place: the token is
    what the exception names. *)
Lemma startup_failure_order_witness :
  startup (<[ "YANDEX_API_TOKEN" := "" ]> Scenes.environ) Scenes.paths
    Scenes.loader
  = ([EvLog ERROR "Не указан токен Яндекса в переменных окружения"],
     Raise (ValueError "YANDEX_API_TOKEN не найден в .env файле")).
Proof.
  destruct (startup_failure_order (<[ "YANDEX_API_TOKEN" := "" ]> Scenes.environ)
              Scenes.paths Scenes.loader) as (A & _).
  apply A. reflexivity.
Defined.
